(** * Irregular ocean waves: the wave-field generator

    A shallow embedding of [generate_irregular_waves] from
    [generate_2d_irregular_ocean_propagating_fields.py].

    Modelling choices.
    - Python floats are idealised as real numbers ([R]); rounding, overflow
      and the non-finite values of IEEE arithmetic are not modelled.  What is
      kept of Python's float semantics is that [a / b] raises
      [ZeroDivisionError] when [b] is zero ([np.random.rand()] with no
      argument, [np.pi] and the float arguments are all Python floats).
    - [np.random.rand()] reads a process-wide generator: the generator is an
      explicit state, a stream of draws and a read position.
    - [wave_params] is a dict mutated in place: it is a component of the
      state threaded through the loop, so that it is still observable when
      the call raises.
    - [grid_size] and [num_waves] are natural numbers. *)

From Stdlib Require Import Ascii String DecimalString DecimalNat.
From Stdlib Require Import Reals Lra Lia List.
From stdpp Require Import gmap list fin_maps.

(** ** Data model *)

(** One entry of [wave_params]: the six-key dict built at line 43. *)
Record WaveComponent := {
  amplitude : R;
  wavelength : R;
  kx : R;
  ky : R;
  phase : R;
  frequency : R
}.

(** A two-dimensional array, as a list of rows. *)
Definition Field := list (list R).

(** The exceptions the function can raise. *)
Inductive PyExn :=
| KeyError (key : nat)
| ZeroDivisionError.

Inductive Outcome (A : Type) :=
| Return (a : A)
| Raise (e : PyExn).
Arguments Return {A} a.
Arguments Raise {A} e.

(** The state of [np.random]: the draws still to come, and how many were
    consumed. *)
Record RandomState := {
  stream : nat -> R;
  position : nat
}.

(** What a call can read and write: the generator and the dict. *)
Record Store := {
  np_random : RandomState;
  dict : gmap nat WaveComponent
}.

(** ** A state and exception monad *)

Definition Py (A : Type) := Store -> Outcome A * Store.

Definition ret {A} (a : A) : Py A := fun s => (Return a, s).

Definition raise {A} (e : PyExn) : Py A := fun s => (Raise e, s).

Definition bind {A B} (m : Py A) (k : A -> Py B) : Py B :=
  fun s =>
    match m s with
    | (Return a, s') => k a s'
    | (Raise e, s') => (Raise e, s')
    end.

Notation "x <- m ;; k" := (bind m (fun x => k))
  (at level 100, m at next level, right associativity).

(** [np.random.rand()]: the next draw; the position advances. *)
Definition rand : Py R :=
  fun s =>
    let g := np_random s in
    (Return (stream g (position g)),
     {| np_random := {| stream := stream g; position := S (position g) |};
        dict := dict s |}).

(** Float division of Python. *)
Definition py_div (a b : R) : Py R :=
  if Req_dec_T b 0 then raise ZeroDivisionError else ret (a / b)%R.

(** [wave_params[i] = c] *)
Definition dict_set (i : nat) (c : WaveComponent) : Py unit :=
  fun s => (Return tt, {| np_random := np_random s; dict := <[i := c]> (dict s) |}).

(** [wave_params[i]] *)
Definition dict_get (i : nat) : Py WaveComponent :=
  fun s =>
    match dict s !! i with
    | Some c => (Return c, s)
    | None => (Raise (KeyError i), s)
    end.

Definition get_dict : Py (gmap nat WaveComponent) :=
  fun s => (Return (dict s), s).

(** ** The numpy operations the function uses *)

(** [np.linspace(start, stop, num)] with the endpoint included, the way
    numpy computes it: [arange(num) * step + start], the last sample set to
    [stop] when there are at least two. *)
Definition linspace (start stop : R) (num : nat) : list R :=
  match num with
  | 0 => []
  | 1 => [(INR 0 * (stop - start) + start)%R]
  | S div =>
      let step := ((stop - start) / INR div)%R in
      map (fun j => (INR j * step + start)%R) (seq 0 div) ++ [stop]
  end.

(** [np.meshgrid(x, y)] (indexing 'xy'): both results have [len(y)] rows and
    [len(x)] columns; [X[r][c] = x[c]], [Y[r][c] = y[r]]. *)
Definition meshgrid (x y : list R) : Field * Field :=
  (map (fun _ => x) y, map (fun yr => map (fun _ => yr) x) y).

(** [np.zeros((rows, cols))] *)
Definition zeros (rows cols : nat) : Field := repeat (repeat 0%R cols) rows.

(** scalar * array, array + scalar, array - scalar, array + array, np.sin *)
Definition scale (k : R) (a : Field) : Field := map (map (Rmult k)) a.
Definition add_scalar (a : Field) (k : R) : Field := map (map (fun v => (v + k)%R)) a.
Definition sub_scalar (a : Field) (k : R) : Field := map (map (fun v => (v - k)%R)) a.
Definition add_field (a b : Field) : Field := zip_with (zip_with Rplus) a b.
Definition np_sin (a : Field) : Field := map (map sin) a.

(** ** generate_irregular_waves *)

(** Lines 36-44: the branch [time == 0] of the loop body. *)
Definition fresh_component (i : nat) (length_scale speed : R) : Py WaveComponent :=
  r <- rand ;;
  let amplitude := (r / 10)%R in
  r <- rand ;;
  let wavelength := (r * length_scale)%R in
  q <- py_div (2 * PI) wavelength ;;
  r <- rand ;;
  let kx := (q * (2 * r - 1))%R in
  q <- py_div (2 * PI) wavelength ;;
  r <- rand ;;
  let ky := (q * (2 * r - 1))%R in
  r <- rand ;;
  let phase := (2 * PI * r)%R in
  let frequency := (speed / (2 * PI) * sqrt (kx ^ 2 + ky ^ 2))%R in
  let c := {| amplitude := amplitude; wavelength := wavelength; kx := kx;
              ky := ky; phase := phase; frequency := frequency |} in
  _ <- dict_set i c ;;
  ret c.

(** Line 55: [amplitude * np.sin(kx * x + ky * y - frequency * time + phase)] *)
Definition wave_term (c : WaveComponent) (x y : Field) (time : R) : Field :=
  scale (amplitude c)
    (np_sin
       (add_scalar
          (sub_scalar (add_field (scale (kx c) x) (scale (ky c) y))
             (frequency c * time)%R)
          (phase c))).

(** Lines 34-55: one iteration of the loop. *)
Definition loop_body (length_scale time speed : R) (x y : Field)
    (i : nat) (eta : Field) : Py Field :=
  c <- (if Req_dec_T time 0
        then fresh_component i length_scale speed
        else dict_get i) ;;
  ret (add_field eta (wave_term c x y time)).

(** [for i in range(...)], the array [eta] carried from one iteration to the
    next. *)
Fixpoint for_range (indices : list nat) (body : nat -> Field -> Py Field)
    (eta : Field) : Py Field :=
  match indices with
  | [] => ret eta
  | i :: rest => eta' <- body i eta ;; for_range rest body eta'
  end.

Definition generate_irregular_waves (grid_size num_waves : nat)
    (length_scale time speed : R) (wave_params : option (gmap nat WaveComponent))
    (rs : RandomState) : Outcome (Field * gmap nat WaveComponent) * Store :=
  let x := linspace 0 (2 * PI) grid_size in
  let y := linspace 0 (2 * PI) grid_size in
  let '(x, y) := meshgrid x y in
  let eta := zeros grid_size grid_size in
  let wave_params :=
    match wave_params with
    | None => ∅
    | Some d => d
    end in
  (eta <- for_range (seq 0 num_waves) (loop_body length_scale time speed x y) eta ;;
   d <- get_dict ;;
   ret (eta, d))
    {| np_random := rs; dict := wave_params |}.

(** ** The driver's threading of the dict (lines 72-75)

    Each frame passes the mapping returned by the previous one; a frame that
    raises ends the run. *)
Fixpoint run_frames (grid_size num_waves : nat) (length_scale speed : R)
    (times : list R) (wave_params : option (gmap nat WaveComponent))
    (rs : RandomState)
    : Outcome (list Field * option (gmap nat WaveComponent)) * Store :=
  match times with
  | [] =>
      (Return ([], wave_params),
       {| np_random := rs;
          dict := match wave_params with None => ∅ | Some d => d end |})
  | time :: later =>
      match generate_irregular_waves grid_size num_waves length_scale time speed
              wave_params rs with
      | (Return (eta, d), s) =>
          match run_frames grid_size num_waves length_scale speed later (Some d)
                  (np_random s) with
          | (Return (etas, d'), s') => (Return (eta :: etas, d'), s')
          | (Raise e, s') => (Raise e, s')
          end
      | (Raise e, s) => (Raise e, s)
      end
  end.

(** ** What the specification says, in its own words *)

(** One sinusoidal term at the point [(x, y)]:
    amplitude·sin(kx·x + ky·y − frequency·time + phase). *)
Definition term (c : WaveComponent) (time x y : R) : R :=
  (amplitude c * sin (kx c * x + ky c * y - frequency c * time + phase c))%R.

(** The sum over the components [0 .. num_waves-1] of a mapping, from a zero
    accumulator, in index order. *)
Definition superposition (d : gmap nat WaveComponent) (num_waves : nat)
    (time x y : R) : R :=
  fold_left
    (fun acc i =>
       match d !! i with
       | Some c => (acc + term c time x y)%R
       | None => acc
       end)
    (seq 0 num_waves) 0%R.

(** A function of the coordinates evaluated on the mesh of [x] and [y]:
    one row per element of [y], one column per element of [x]. *)
Definition on_mesh (f : R -> R -> R) (x y : list R) : Field :=
  map (fun yr => map (fun xc => f xc yr) x) y.

(** The height field of the specification on the [grid_size] mesh. *)
Definition height_field (d : gmap nat WaveComponent) (grid_size num_waves : nat)
    (time : R) : Field :=
  on_mesh (superposition d num_waves time)
    (linspace 0 (2 * PI) grid_size) (linspace 0 (2 * PI) grid_size).

(** The component the branch [time == 0] builds from the five draws at
    positions [p .. p+4]. *)
Definition drawn_component (length_scale speed : R) (draws : nat -> R) (p : nat)
    : WaveComponent :=
  let wl := (draws (p + 1)%nat * length_scale)%R in
  let k1 := (2 * PI / wl * (2 * draws (p + 2)%nat - 1))%R in
  let k2 := (2 * PI / wl * (2 * draws (p + 3)%nat - 1))%R in
  {| amplitude := (draws p / 10)%R;
     wavelength := wl;
     kx := k1;
     ky := k2;
     phase := (2 * PI * draws (p + 4)%nat)%R;
     frequency := (speed / (2 * PI) * sqrt (k1 ^ 2 + k2 ^ 2))%R |}.

(** The dict after the iterations [indices] of the branch [time == 0], the
    first of them reading its draws at position [p]. *)
Fixpoint populate (length_scale speed : R) (draws : nat -> R) (p : nat)
    (indices : list nat) (d : gmap nat WaveComponent) : gmap nat WaveComponent :=
  match indices with
  | [] => d
  | i :: rest =>
      populate length_scale speed draws (p + 5) rest
        (<[i := drawn_component length_scale speed draws p]> d)
  end.

(** The draws of [np.random.rand()] lie in [0, 1). *)
Definition unit_interval (draws : nat -> R) : Prop :=
  forall n, (0 <= draws n < 1)%R.

(** A mapping has an entry for every index below [num_waves]. *)
Definition populated (d : gmap nat WaveComponent) (num_waves : nat) : Prop :=
  forall i, (i < num_waves)%nat -> is_Some (d !! i).

(** The shape of a two-dimensional array. *)
Definition has_shape (a : Field) (rows cols : nat) : Prop :=
  length a = rows /\ Forall (fun row => length row = cols) a.

(** One step of the sum of [superposition]. *)
Definition add_term (d : gmap nat WaveComponent) (time x y : R) (acc : R) (i : nat) : R :=
  match d !! i with
  | Some c => (acc + term c time x y)%R
  | None => acc
  end.

(** The generator after [n] more draws. *)
Definition advance (n : nat) (g : RandomState) : RandomState :=
  {| stream := stream g; position := position g + n |}.

(** The sum the loop accumulates at [(x, y)] over [count] freshly drawn
    components, the first of them reading its draws at position [p]. *)
Fixpoint drawn_sum (length_scale speed : R) (draws : nat -> R) (p count : nat)
    (time x y acc : R) : R :=
  match count with
  | 0 => acc
  | S n =>
      drawn_sum length_scale speed draws (p + 5) n time x y
        (acc + term (drawn_component length_scale speed draws p) time x y)%R
  end.

(** The field of an outcome, when there is one. *)
Definition field_of (o : Outcome (Field * gmap nat WaveComponent)) : option Field :=
  match o with
  | Return (eta, _) => Some eta
  | Raise _ => None
  end.

(** ** Sample data for the instances below *)

Definition sample_component : WaveComponent :=
  {| amplitude := 1; wavelength := 1; kx := 1; ky := 0; phase := 0; frequency := 0 |}.

Definition sample_params : gmap nat WaveComponent := {[ 0%nat := sample_component ]}.

(** A generator whose draws are all one half. *)
Definition half_stream : nat -> R := fun _ => (1 / 2)%R.
Definition half_random : RandomState := {| stream := half_stream; position := 0 |}.

(** A generator whose draw at position 4, the phase of the first component,
    is one quarter, the others one half. *)
Definition quarter_phase_stream : nat -> R :=
  fun n => if (n =? 4)%nat then (1 / 4)%R else (1 / 2)%R.

(** The same, but the first draw, the one of the amplitude, is zero. *)
Definition zero_amplitude_stream : nat -> R :=
  fun n => if (n =? 0)%nat then 0%R else quarter_phase_stream n.

Definition quarter_phase_random : RandomState :=
  {| stream := quarter_phase_stream; position := 0 |}.

Definition zero_amplitude_random : RandomState :=
  {| stream := zero_amplitude_stream; position := 0 |}.

(** A generator whose draws are all zero. *)
Definition zero_random : RandomState := {| stream := fun _ => 0%R; position := 0 |}.

(** The sum of the absolute amplitudes of the components below
    [num_waves]. *)
Definition amplitude_sum (d : gmap nat WaveComponent) (num_waves : nat) : R :=
  fold_left
    (fun acc i =>
       match d !! i with
       | Some c => (acc + Rabs (amplitude c))%R
       | None => acc
       end)
    (seq 0 num_waves) 0%R.

(** The entry of row [r] and column [c] of an array. *)
Definition entry (a : list (list R)) (r c : nat) : option R :=
  match a !! r with
  | Some row => row !! c
  | None => None
  end.

(** A generator whose draw at position 6, the wavelength of the second
    component, is zero, the others one half. *)
Definition second_wavelength_zero_stream : nat -> R :=
  fun n => if (n =? 6)%nat then 0%R else (1 / 2)%R.

Definition second_wavelength_zero_random : RandomState :=
  {| stream := second_wavelength_zero_stream; position := 0 |}.

(** ** The driver (lines 59-95) *)

(** [str(n)] for a non-negative integer: its decimal digits. *)
Definition py_str (n : nat) : string := NilEmpty.string_of_uint (Nat.to_uint n).

(** A string of [n] characters ['0']. *)
Fixpoint zero_fill (n : nat) : string :=
  match n with
  | 0 => EmptyString
  | S k => String "0"%char (zero_fill k)
  end.

(** [f'{n:03d}']: the decimal digits, with zeros in front up to a width of
    three. *)
Definition format_03d (n : nat) : string :=
  let digits := py_str n in
  String.append (zero_fill (3 - String.length digits)) digits.

(** Line 92: [f'{output_dir}/frame_{frame:03d}.png'] *)
Definition frame_file (output_dir : string) (frame : nat) : string :=
  String.append output_dir
    (String.append "/frame_" (String.append (format_03d frame) ".png")).

(** One figure written by [plt.savefig]: the file, the time shown in the
    title, and the array drawn by [plt.contourf]. *)
Record SavedFigure := {
  file : string;
  title_time : R;
  contour : Field
}.

(** Lines 73-93: the loop over the frames.  The figures saved before an
    exception stay written; the exception ends the run. *)
Fixpoint frame_loop (grid_size num_waves : nat) (length_scale speed time_interval : R)
    (output_dir : string) (frames : list nat)
    (wave_params : option (gmap nat WaveComponent)) (rs : RandomState)
    : list SavedFigure * (Outcome (option (gmap nat WaveComponent)) * Store) :=
  match frames with
  | [] =>
      ([], (Return wave_params,
            {| np_random := rs;
               dict := match wave_params with None => ∅ | Some d => d end |}))
  | frame :: later =>
      let time := (INR frame * time_interval)%R in
      match generate_irregular_waves grid_size num_waves length_scale time speed
              wave_params rs with
      | (Return (eta, d), s) =>
          let '(saved, out) :=
            frame_loop grid_size num_waves length_scale speed time_interval
              output_dir later (Some d) (np_random s) in
          ({| file := frame_file output_dir frame; title_time := time;
              contour := eta |} :: saved, out)
      | (Raise e, s) => ([], (Raise e, s))
      end
  end.

(** Lines 59-75: the run, from no parameters, over the frames
    [0 .. num_frames-1]. *)
Definition driver (grid_size num_waves : nat) (length_scale speed : R)
    (num_frames : nat) (time_interval : R) (output_dir : string) (rs : RandomState)
    : list SavedFigure * (Outcome (option (gmap nat WaveComponent)) * Store) :=
  frame_loop grid_size num_waves length_scale speed time_interval output_dir
    (seq 0 num_frames) None rs.

(** The run with the parameters of lines 60-68. *)
Definition main (rs : RandomState)
    : list SavedFigure * (Outcome (option (gmap nat WaveComponent)) * Store) :=
  driver 210 1000 10 1 5000 (2 / 10) "figs" rs.

(** The figure of a frame whose field is that of the mapping [d]. *)
Definition figure_of (grid_size num_waves : nat) (time_interval : R)
    (output_dir : string) (d : gmap nat WaveComponent) (frame : nat) : SavedFigure :=
  {| file := frame_file output_dir frame;
     title_time := (INR frame * time_interval)%R;
     contour := height_field d grid_size num_waves (INR frame * time_interval) |}.

(** ** Arrays on a mesh *)

Section Mesh.
Variables x y : list R.

Lemma meshgrid_on_mesh :
  meshgrid x y = (on_mesh (fun xc _ => xc) x y, on_mesh (fun _ yr => yr) x y).
Proof.
  unfold meshgrid, on_mesh. f_equal. apply map_ext. intros _.
  symmetry. apply map_id.
Qed.

Lemma map_on_mesh (g : R -> R) (f : R -> R -> R) :
  map (map g) (on_mesh f x y) = on_mesh (fun a b => g (f a b)) x y.
Proof.
  unfold on_mesh. rewrite map_map. apply map_ext. intros yr.
  now rewrite map_map.
Qed.

Lemma zip_with_map_same (h : R -> R -> R) (f g : R -> R) (l : list R) :
  zip_with h (map f l) (map g l) = map (fun a => h (f a) (g a)) l.
Proof. induction l as [|a l IH]; simpl; [reflexivity | now rewrite IH]. Qed.

Lemma zip_on_mesh (h : R -> R -> R) (f g : R -> R -> R) :
  zip_with (zip_with h) (on_mesh f x y) (on_mesh g x y)
  = on_mesh (fun a b => h (f a b) (g a b)) x y.
Proof.
  unfold on_mesh. induction y as [|yr l IH]; simpl; [reflexivity |].
  now rewrite zip_with_map_same, IH.
Qed.

Lemma zeros_on_mesh : zeros (length y) (length x) = on_mesh (fun _ _ => 0%R) x y.
Proof.
  unfold zeros, on_mesh.
  assert (Hrow : repeat 0%R (length x) = map (fun _ => 0%R) x).
  { induction x as [|a l IH]; simpl; [reflexivity | now rewrite IH]. }
  rewrite Hrow. induction y as [|yr l IH]; simpl; [reflexivity | now rewrite IH].
Qed.

Lemma on_mesh_shape (f : R -> R -> R) : has_shape (on_mesh f x y) (length y) (length x).
Proof.
  unfold has_shape, on_mesh. split.
  - apply length_map.
  - apply Forall_forall. intros row Hrow.
    apply list_elem_of_In, in_map_iff in Hrow. destruct Hrow as [yr [<- _]].
    apply length_map.
Qed.

Lemma on_mesh_ext (f g : R -> R -> R) :
  (forall a b, f a b = g a b) -> on_mesh f x y = on_mesh g x y.
Proof.
  intros H. unfold on_mesh. apply map_ext. intros yr. apply map_ext.
  intros xc. apply H.
Qed.

Lemma wave_term_on_mesh (c : WaveComponent) (time : R) :
  wave_term c (on_mesh (fun xc _ => xc) x y) (on_mesh (fun _ yr => yr) x y) time
  = on_mesh (term c time) x y.
Proof.
  unfold wave_term, scale, np_sin, add_scalar, sub_scalar, add_field.
  rewrite !map_on_mesh, zip_on_mesh, !map_on_mesh. reflexivity.
Qed.

Lemma accumulate_on_mesh (f : R -> R -> R) (c : WaveComponent) (time : R) :
  add_field (on_mesh f x y)
    (wave_term c (on_mesh (fun xc _ => xc) x y) (on_mesh (fun _ yr => yr) x y) time)
  = on_mesh (fun a b => (f a b + term c time a b)%R) x y.
Proof. rewrite wave_term_on_mesh. unfold add_field. apply zip_on_mesh. Qed.
End Mesh.

Lemma length_linspace (start stop : R) (num : nat) : length (linspace start stop num) = num.
Proof.
  destruct num as [|[|n]]; simpl; try reflexivity.
  rewrite length_app, length_map, length_seq. simpl. lia.
Qed.

(** ** The loop when [time] is not zero: the dict is only read *)

Section Reuse.
Variables (length_scale time speed : R) (x y : Field).
Hypothesis time_nonzero : time <> 0%R.

Lemma loop_body_reuse (i : nat) (eta : Field) (s : Store) :
  loop_body length_scale time speed x y i eta s
  = match dict s !! i with
    | Some c => (Return (add_field eta (wave_term c x y time)), s)
    | None => (Raise (KeyError i), s)
    end.
Proof.
  unfold loop_body, bind, dict_get, ret.
  destruct (Req_dec_T time 0) as [E | _]; [contradiction |].
  destruct (dict s !! i); reflexivity.
Qed.

(** The store is left as it was, whatever the outcome. *)
Lemma for_range_reuse_store (indices : list nat) (eta : Field) (s : Store) :
  snd (for_range indices (loop_body length_scale time speed x y) eta s) = s.
Proof.
  revert eta. induction indices as [|i rest IH]; intros eta; simpl.
  - reflexivity.
  - unfold bind. rewrite loop_body_reuse.
    destruct (dict s !! i); [apply IH | reflexivity].
Qed.

(** The outcome is a function of the dict alone: the generator is not read. *)
Lemma for_range_reuse_outcome (indices : list nat) (eta : Field) (s1 s2 : Store) :
  dict s1 = dict s2 ->
  fst (for_range indices (loop_body length_scale time speed x y) eta s1)
  = fst (for_range indices (loop_body length_scale time speed x y) eta s2).
Proof.
  intros Hd. revert eta. induction indices as [|i rest IH]; intros eta; simpl.
  - reflexivity.
  - unfold bind. rewrite !loop_body_reuse, Hd.
    destruct (dict s2 !! i); [apply IH | reflexivity].
Qed.

(** A missing index stops the loop with [KeyError] at the first one. *)
Lemma for_range_reuse_missing (indices : list nat) (eta : Field) (s : Store) :
  (exists i, In i indices /\ dict s !! i = None) ->
  exists j, In j indices /\ dict s !! j = None /\
    for_range indices (loop_body length_scale time speed x y) eta s
    = (Raise (KeyError j), s).
Proof.
  revert eta. induction indices as [|i rest IH]; intros eta [k [Hin Hk]].
  - destruct Hin.
  - simpl. unfold bind. rewrite loop_body_reuse.
    destruct (dict s !! i) as [c|] eqn:Hi.
    + destruct Hin as [-> | Hin]; [congruence |].
      destruct (IH (add_field eta (wave_term c x y time))) as [j [Hj [Hn Hr]]].
      { exists k. split; assumption. }
      exists j. repeat split; [right; exact Hj | exact Hn | exact Hr].
    + exists i. repeat split; [left; reflexivity | exact Hi].
Qed.
End Reuse.

Section ReuseOnMesh.
Variables (length_scale time speed : R) (xs ys : list R).
Hypothesis time_nonzero : time <> 0%R.

(** With every index present the loop returns the accumulated sum. *)
Lemma for_range_reuse_sum (indices : list nat) (f : R -> R -> R) (s : Store) :
  (forall i, In i indices -> is_Some (dict s !! i)) ->
  for_range indices
    (loop_body length_scale time speed
       (on_mesh (fun xc _ => xc) xs ys) (on_mesh (fun _ yr => yr) xs ys))
    (on_mesh f xs ys) s
  = (Return (on_mesh (fun a b => fold_left (add_term (dict s) time a b) indices (f a b))
               xs ys), s).
Proof.
  revert f. induction indices as [|i rest IH]; intros f Hall; simpl.
  - reflexivity.
  - unfold bind. rewrite loop_body_reuse by assumption.
    destruct (Hall i (or_introl eq_refl)) as [c Hc]. rewrite Hc.
    rewrite accumulate_on_mesh, IH.
    + f_equal. f_equal. apply on_mesh_ext. intros a b.
      unfold add_term at 3. now rewrite Hc.
    + intros j Hj. apply Hall. now right.
Qed.
End ReuseOnMesh.

(** ** The loop when [time] is zero: every iteration draws and stores *)

Lemma advance_0 (g : RandomState) : advance 0 g = g.
Proof. destruct g as [st p]. unfold advance; simpl. f_equal. lia. Qed.

Lemma advance_advance (n m : nat) (g : RandomState) :
  advance n (advance m g) = advance (m + n) g.
Proof. unfold advance; simpl. f_equal. lia. Qed.

Lemma rand_advance (n : nat) (g : RandomState) (d : gmap nat WaveComponent) :
  rand {| np_random := advance n g; dict := d |}
  = (Return (stream g (position g + n)), {| np_random := advance (S n) g; dict := d |}).
Proof.
  unfold rand, advance; simpl. do 3 f_equal. lia.
Qed.

Section Fresh.
Variables (length_scale speed : R).

Lemma fresh_component_returns (i : nat) (g : RandomState) (d : gmap nat WaveComponent) :
  (stream g (position g + 1) * length_scale)%R <> 0%R ->
  fresh_component i length_scale speed {| np_random := g; dict := d |}
  = (Return (drawn_component length_scale speed (stream g) (position g)),
     {| np_random := advance 5 g;
        dict := <[i := drawn_component length_scale speed (stream g) (position g)]> d |}).
Proof.
  intros Hwl. rewrite <- (advance_0 g) at 1.
  unfold fresh_component, bind, py_div.
  rewrite rand_advance, rand_advance.
  destruct (Req_dec_T (stream g (position g + 1) * length_scale) 0) as [E | _];
    [contradiction |].
  unfold ret. rewrite rand_advance.
  destruct (Req_dec_T (stream g (position g + 1) * length_scale) 0) as [E | _];
    [contradiction |].
  rewrite rand_advance, rand_advance.
  unfold dict_set, drawn_component; simpl.
  rewrite Nat.add_0_r. reflexivity.
Qed.

Lemma fresh_component_raises (i : nat) (g : RandomState) (d : gmap nat WaveComponent) :
  (stream g (position g + 1) * length_scale)%R = 0%R ->
  fresh_component i length_scale speed {| np_random := g; dict := d |}
  = (Raise ZeroDivisionError, {| np_random := advance 2 g; dict := d |}).
Proof.
  intros Hwl. rewrite <- (advance_0 g) at 1.
  unfold fresh_component, bind, py_div.
  rewrite rand_advance, rand_advance.
  destruct (Req_dec_T (stream g (position g + 1) * length_scale) 0) as [_ | N];
    [reflexivity | contradiction].
Qed.
End Fresh.

Section FreshLoop.
Variables (length_scale speed : R) (xs ys : list R).

Let X := on_mesh (fun xc _ : R => xc) xs ys.
Let Y := on_mesh (fun _ yr : R => yr) xs ys.

Lemma loop_body_fresh (i : nat) (eta : Field) (s : Store) :
  loop_body length_scale 0 speed X Y i eta s
  = bind (fresh_component i length_scale speed)
      (fun c => ret (add_field eta (wave_term c X Y 0))) s.
Proof.
  unfold loop_body. destruct (Req_dec_T 0 0) as [_ | N]; [reflexivity | now destruct N].
Qed.

(** No wavelength is zero: the loop returns, having consumed five draws and
    stored one component per iteration. *)
Lemma for_range_fresh_returns (indices : list nat) (f : R -> R -> R)
    (g : RandomState) (d : gmap nat WaveComponent) :
  (forall k, (k < length indices)%nat ->
     (stream g (position g + 5 * k + 1) * length_scale)%R <> 0%R) ->
  for_range indices (loop_body length_scale 0 speed X Y) (on_mesh f xs ys)
    {| np_random := g; dict := d |}
  = (Return (on_mesh (fun a b =>
               drawn_sum length_scale speed (stream g) (position g)
                 (length indices) 0 a b (f a b)) xs ys),
     {| np_random := advance (5 * length indices) g;
        dict := populate length_scale speed (stream g) (position g) indices d |}).
Proof.
  revert f g d. induction indices as [|i rest IH]; intros f g d Hwl.
  - simpl. unfold ret. now rewrite advance_0.
  - cbn [for_range]. unfold bind at 1. rewrite loop_body_fresh. unfold bind at 1.
    rewrite fresh_component_returns.
    2:{ specialize (Hwl 0%nat). simpl in Hwl.
        replace (position g + 0 + 1)%nat with (position g + 1)%nat in Hwl by lia.
        apply Hwl. lia. }
    unfold ret. subst X Y. rewrite accumulate_on_mesh, IH.
    + rewrite advance_advance. cbn [stream position advance].
      f_equal. f_equal. f_equal. simpl length. lia.
    + intros k Hk. cbn [stream position advance].
      replace (position g + 5 + 5 * k + 1)%nat with (position g + 5 * S k + 1)%nat by lia.
      apply Hwl. simpl. lia.
Qed.

(** Some wavelength is zero: the loop raises [ZeroDivisionError]. *)
Lemma for_range_fresh_raises (indices : list nat) (eta : Field)
    (g : RandomState) (d : gmap nat WaveComponent) :
  (exists k, (k < length indices)%nat /\
     (stream g (position g + 5 * k + 1) * length_scale)%R = 0%R) ->
  fst (for_range indices (loop_body length_scale 0 speed X Y) eta
         {| np_random := g; dict := d |})
  = Raise ZeroDivisionError.
Proof.
  revert eta g d. induction indices as [|i rest IH]; intros eta g d [k [Hk Hz]].
  - simpl in Hk. lia.
  - cbn [for_range]. unfold bind at 1. rewrite loop_body_fresh. unfold bind at 1.
    destruct (Req_dec_T (stream g (position g + 1) * length_scale) 0) as [E | N].
    + now rewrite fresh_component_raises.
    + rewrite fresh_component_returns by exact N. unfold ret.
      apply IH. destruct k as [|k].
      * replace (position g + 5 * 0 + 1)%nat with (position g + 1)%nat in Hz by lia.
        contradiction.
      * exists k. split; [simpl in Hk; lia |].
        cbn [stream position advance].
        replace (position g + 5 + 5 * k + 1)%nat with (position g + 5 * S k + 1)%nat by lia.
        exact Hz.
Qed.
End FreshLoop.

(** ** The dict built at time zero *)

Lemma populate_lookup_other (length_scale speed : R) (draws : nat -> R)
    (indices : list nat) (p : nat) (d : gmap nat WaveComponent) (j : nat) :
  ~ In j indices ->
  populate length_scale speed draws p indices d !! j = d !! j.
Proof.
  revert p d. induction indices as [|i rest IH]; intros p d Hj; simpl.
  - reflexivity.
  - rewrite IH by (intros H; apply Hj; now right).
    apply lookup_insert_ne. intros ->. apply Hj. now left.
Qed.

Lemma populate_lookup_seq (length_scale speed : R) (draws : nat -> R)
    (len a p : nat) (d : gmap nat WaveComponent) (k : nat) :
  (k < len)%nat ->
  populate length_scale speed draws p (seq a len) d !! (a + k)%nat
  = Some (drawn_component length_scale speed draws (p + 5 * k)).
Proof.
  revert a p d k. induction len as [|len IH]; intros a p d k Hk; [lia |].
  cbn [seq populate]. destruct k as [|k].
  - rewrite populate_lookup_other.
    + replace (a + 0)%nat with a by lia. replace (p + 5 * 0)%nat with p by lia.
      apply lookup_insert_eq.
    + rewrite in_seq. lia.
  - replace (a + S k)%nat with (S a + k)%nat by lia.
    rewrite IH by lia. do 2 f_equal. lia.
Qed.

Lemma populate_dom_seq (length_scale speed : R) (draws : nat -> R)
    (len a p : nat) (d : gmap nat WaveComponent) :
  dom (populate length_scale speed draws p (seq a len) d)
  = dom d ∪ set_seq a len.
Proof.
  revert a p d. induction len as [|len IH]; intros a p d; simpl.
  - now rewrite (right_id_L ∅ (∪)).
  - rewrite IH, dom_insert_L, (comm_L (∪) {[a]} (dom d)).
    now rewrite <- (assoc_L (∪)).
Qed.

(** ** The whole function *)

(** The function is its loop, run on the mesh of the two [linspace] vectors
    from the zero field; the dict returned is the one the loop leaves. *)
Lemma generate_unfold (grid_size num_waves : nat) (length_scale time speed : R)
    (wave_params : option (gmap nat WaveComponent)) (rs : RandomState) :
  let xs := linspace 0 (2 * PI) grid_size in
  generate_irregular_waves grid_size num_waves length_scale time speed wave_params rs
  = match for_range (seq 0 num_waves)
            (loop_body length_scale time speed
               (on_mesh (fun xc _ => xc) xs xs) (on_mesh (fun _ yr => yr) xs xs))
            (on_mesh (fun _ _ => 0%R) xs xs)
            {| np_random := rs; dict := default ∅ wave_params |} with
    | (Return eta, s) => (Return (eta, dict s), s)
    | (Raise e, s) => (Raise e, s)
    end.
Proof.
  intros xs. unfold generate_irregular_waves. fold xs.
  rewrite meshgrid_on_mesh.
  replace (zeros grid_size grid_size) with (zeros (length xs) (length xs))
    by (unfold xs; now rewrite length_linspace).
  rewrite zeros_on_mesh. unfold bind, get_dict, ret, default.
  destruct (for_range _ _ _ _) as [[eta | e] s]; reflexivity.
Qed.

Lemma superposition_fold (d : gmap nat WaveComponent) (num_waves : nat) (time a b : R) :
  fold_left (add_term d time a b) (seq 0 num_waves) 0%R = superposition d num_waves time a b.
Proof. reflexivity. Qed.

(** A call at a non-zero time on a populated mapping. *)
Lemma generate_reuse (grid_size num_waves : nat) (length_scale time speed : R)
    (d : gmap nat WaveComponent) (rs : RandomState) :
  time <> 0%R ->
  populated d num_waves ->
  generate_irregular_waves grid_size num_waves length_scale time speed (Some d) rs
  = (Return (height_field d grid_size num_waves time, d),
     {| np_random := rs; dict := d |}).
Proof.
  intros Ht Hd. rewrite generate_unfold. cbn [default].
  rewrite for_range_reuse_sum.
  - reflexivity.
  - exact Ht.
  - intros i Hi. apply Hd. apply in_seq in Hi. lia.
Qed.

(** A call at time zero in which no wavelength is zero. *)
Lemma generate_fresh (grid_size num_waves : nat) (length_scale speed : R)
    (wave_params : option (gmap nat WaveComponent)) (rs : RandomState) :
  (forall k, (k < num_waves)%nat ->
     (stream rs (position rs + 5 * k + 1) * length_scale)%R <> 0%R) ->
  let xs := linspace 0 (2 * PI) grid_size in
  let d := populate length_scale speed (stream rs) (position rs) (seq 0 num_waves)
             (default ∅ wave_params) in
  generate_irregular_waves grid_size num_waves length_scale 0 speed wave_params rs
  = (Return (on_mesh (fun a b =>
               drawn_sum length_scale speed (stream rs) (position rs) num_waves 0 a b 0)
               xs xs, d),
     {| np_random := advance (5 * num_waves) rs; dict := d |}).
Proof.
  intros Hwl xs d. rewrite generate_unfold. fold xs.
  rewrite for_range_fresh_returns.
  - now rewrite length_seq.
  - now rewrite length_seq.
Qed.

(** A call at time zero in which some wavelength is zero. *)
Lemma generate_fresh_raises (grid_size num_waves : nat) (length_scale speed : R)
    (wave_params : option (gmap nat WaveComponent)) (rs : RandomState) :
  (exists k, (k < num_waves)%nat /\
     (stream rs (position rs + 5 * k + 1) * length_scale)%R = 0%R) ->
  fst (generate_irregular_waves grid_size num_waves length_scale 0 speed wave_params rs)
  = Raise ZeroDivisionError.
Proof.
  intros Hz. rewrite generate_unfold.
  pose proof (for_range_fresh_raises length_scale speed
                (linspace 0 (2 * PI) grid_size) (linspace 0 (2 * PI) grid_size)
                (seq 0 num_waves)
                (on_mesh (fun _ _ => 0%R) (linspace 0 (2 * PI) grid_size)
                   (linspace 0 (2 * PI) grid_size))
                rs (default ∅ wave_params)) as H.
  rewrite length_seq in H. specialize (H Hz).
  destruct (for_range _ _ _ _) as [[eta | e] s]; simpl in *; congruence.
Qed.

(** Either no wavelength among the first [n] is zero, or one is. *)
Lemma zero_among (f : nat -> R) (n : nat) :
  (forall k, (k < n)%nat -> f k <> 0%R) \/ (exists k, (k < n)%nat /\ f k = 0%R).
Proof.
  induction n as [|n [IH | [k [Hk Hz]]]].
  - left. intros k Hk. lia.
  - destruct (Req_dec_T (f n) 0) as [E | N].
    + right. exists n. split; [lia | exact E].
    + left. intros k Hk. destruct (Nat.eq_dec k n) as [-> | Hne]; [exact N |].
      apply IH. lia.
  - right. exists k. split; [lia | exact Hz].
Qed.

(** A call at time zero that returns has stored the drawn components. *)
Lemma generate_fresh_inv (grid_size num_waves : nat) (length_scale speed : R)
    (wave_params : option (gmap nat WaveComponent)) (rs : RandomState)
    (eta : Field) (d : gmap nat WaveComponent) (s : Store) :
  generate_irregular_waves grid_size num_waves length_scale 0 speed wave_params rs
  = (Return (eta, d), s) ->
  (forall k, (k < num_waves)%nat ->
     (stream rs (position rs + 5 * k + 1) * length_scale)%R <> 0%R) /\
  d = populate length_scale speed (stream rs) (position rs) (seq 0 num_waves)
        (default ∅ wave_params).
Proof.
  intros Hrun.
  destruct (zero_among
              (fun k => (stream rs (position rs + 5 * k + 1) * length_scale)%R)
              num_waves) as [Hnz | Hz].
  - split; [exact Hnz |].
    rewrite generate_fresh in Hrun by exact Hnz. congruence.
  - apply (generate_fresh_raises grid_size _ _ speed wave_params) in Hz.
    rewrite Hrun in Hz. discriminate.
Qed.

(** ** The shape of the accumulated field *)

Section Shape.
Variables (length_scale time speed : R) (xs ys : list R).

Let X := on_mesh (fun xc _ : R => xc) xs ys.
Let Y := on_mesh (fun _ yr : R => yr) xs ys.

(** An iteration that returns has added one wave term. *)
Lemma loop_body_returns (i : nat) (eta eta' : Field) (s s' : Store) :
  loop_body length_scale time speed X Y i eta s = (Return eta', s') ->
  exists c, eta' = add_field eta (wave_term c X Y time).
Proof.
  unfold loop_body, bind, ret. intros H.
  destruct ((if Req_dec_T time 0
             then fresh_component i length_scale speed
             else dict_get i) s) as [[c | e] s1]; [| discriminate].
  exists c. congruence.
Qed.

Lemma for_range_on_mesh (indices : list nat) (f : R -> R -> R) (eta : Field)
    (s s' : Store) :
  for_range indices (loop_body length_scale time speed X Y) (on_mesh f xs ys) s
  = (Return eta, s') ->
  exists g, eta = on_mesh g xs ys.
Proof.
  revert f s. induction indices as [|i rest IH]; intros f s H.
  - simpl in H. unfold ret in H. exists f. congruence.
  - cbn [for_range] in H. unfold bind at 1 in H.
    destruct (loop_body length_scale time speed X Y i (on_mesh f xs ys) s)
      as [[eta1 | e] s1] eqn:Hbody; [| discriminate].
    apply loop_body_returns in Hbody. destruct Hbody as [c ->].
    subst X Y. rewrite accumulate_on_mesh in H. eapply IH. exact H.
Qed.
End Shape.

Lemma zeros_shape (rows cols : nat) : has_shape (zeros rows cols) rows cols.
Proof.
  unfold has_shape, zeros. split.
  - apply repeat_length.
  - apply Forall_forall. intros row Hrow.
    apply list_elem_of_In, repeat_spec in Hrow. subst row. apply repeat_length.
Qed.

(** ** Facts about the sample data *)

Lemma sample_params_populated : populated sample_params 1.
Proof.
  intros i Hi. assert (i = 0)%nat as -> by lia.
  exists sample_component. apply lookup_singleton_eq.
Qed.

Lemma five_nonzero : 5%R <> 0%R.
Proof. lra. Qed.

(** ** The claims *)

(** C1. At a non-zero time, on a mapping with an entry for every index below
    [num_waves], the call returns the field whose value at each point of the
    mesh of the two [linspace] vectors (length [grid_size], from 0 to 2π) is
    the sum over the components, in index order from a zero accumulator, of
    amplitude·sin(kx·x + ky·y − frequency·time + phase). *)
Theorem height_field_is_superposition (grid_size num_waves : nat)
    (length_scale time speed : R) (d : gmap nat WaveComponent) (rs : RandomState) :
  time <> 0%R ->
  populated d num_waves ->
  field_of (fst (generate_irregular_waves grid_size num_waves length_scale time speed
                   (Some d) rs))
  = Some (on_mesh
            (fun x y =>
               fold_left
                 (fun acc i =>
                    match d !! i with
                    | Some c =>
                        (acc + amplitude c *
                               sin (kx c * x + ky c * y - frequency c * time + phase c))%R
                    | None => acc
                    end)
                 (seq 0 num_waves) 0%R)
            (linspace 0 (2 * PI) grid_size) (linspace 0 (2 * PI) grid_size)).
Proof.
  intros Ht Hd. rewrite generate_reuse by assumption. reflexivity.
Qed.

Lemma height_field_is_superposition_witness :
  field_of (fst (generate_irregular_waves 2 1 10 5 1 (Some sample_params) half_random))
  = Some (on_mesh
            (fun x y =>
               fold_left
                 (fun acc i =>
                    match sample_params !! i with
                    | Some c =>
                        (acc + amplitude c *
                               sin (kx c * x + ky c * y - frequency c * 5 + phase c))%R
                    | None => acc
                    end)
                 (seq 0 1) 0%R)
            (linspace 0 (2 * PI) 2) (linspace 0 (2 * PI) 2)).
Proof.
  exact (height_field_is_superposition 2 1 10 5 1 sample_params half_random
           five_nonzero sample_params_populated).
Defined.

(** C8. Whatever the number of waves, the time and the mapping, a field that
    is returned has [grid_size] rows of [grid_size] values. *)
Theorem height_field_shape (grid_size num_waves : nat) (length_scale time speed : R)
    (wave_params : option (gmap nat WaveComponent)) (rs : RandomState)
    (eta : Field) (d : gmap nat WaveComponent) (s : Store) :
  generate_irregular_waves grid_size num_waves length_scale time speed wave_params rs
  = (Return (eta, d), s) ->
  has_shape eta grid_size grid_size.
Proof.
  rewrite generate_unfold. intros H.
  destruct (for_range _ _ _ _) as [[eta1 | e] s1] eqn:Hloop; [| discriminate].
  apply for_range_on_mesh in Hloop. destruct Hloop as [g ->].
  injection H as <- _ _.
  pose proof (on_mesh_shape (linspace 0 (2 * PI) grid_size)
                (linspace 0 (2 * PI) grid_size) g) as Hs.
  now rewrite length_linspace in Hs.
Qed.

Lemma height_field_shape_witness :
  has_shape (height_field sample_params 2 1 5) 2 2.
Proof.
  exact (height_field_shape 2 1 10 5 1 (Some sample_params) half_random
           (height_field sample_params 2 1 5) sample_params
           {| np_random := half_random; dict := sample_params |}
           (generate_reuse 2 1 10 5 1 sample_params half_random
              five_nonzero sample_params_populated)).
Defined.

(** C9. With no wave to sum, the call never raises, at any time and with or
    without a mapping: it returns the zero field of [grid_size] rows and
    columns and the mapping it was given, or an empty one when it was given
    none; no draw is consumed. *)
Theorem no_waves_zero_field (grid_size : nat) (length_scale time speed : R)
    (wave_params : option (gmap nat WaveComponent)) (rs : RandomState) :
  generate_irregular_waves grid_size 0 length_scale time speed wave_params rs
  = (Return (zeros grid_size grid_size,
             match wave_params with None => ∅ | Some d => d end),
     {| np_random := rs;
        dict := match wave_params with None => ∅ | Some d => d end |}).
Proof. reflexivity. Qed.

(** C5. At a non-zero time, a mapping that lacks an entry for some index
    below [num_waves] makes the call raise [KeyError] (at the first missing
    index, the store untouched) instead of returning a field; so does an
    empty or absent mapping as soon as there is a wave to sum, and so the
    call at time 5.0. *)
Theorem missing_parameter_raises_key_error (grid_size num_waves : nat)
    (length_scale speed : R) (rs : RandomState) :
  (forall time wave_params,
     time <> 0%R ->
     (exists i, (i < num_waves)%nat /\ default ∅ wave_params !! i = None) ->
     exists j, (j < num_waves)%nat /\ default ∅ wave_params !! j = None /\
       generate_irregular_waves grid_size num_waves length_scale time speed
         wave_params rs
       = (Raise (KeyError j), {| np_random := rs; dict := default ∅ wave_params |})) /\
  (forall time wave_params,
     time <> 0%R ->
     (0 < num_waves)%nat ->
     wave_params = None \/ wave_params = Some ∅ ->
     fst (generate_irregular_waves grid_size num_waves length_scale time speed
            wave_params rs)
     = Raise (KeyError 0)) /\
  (forall wave_params,
     (0 < num_waves)%nat ->
     wave_params = None \/ wave_params = Some ∅ ->
     fst (generate_irregular_waves grid_size num_waves length_scale 5 speed
            wave_params rs)
     = Raise (KeyError 0)).
Proof.
  assert (Hgen : forall time wave_params,
     time <> 0%R ->
     (exists i, (i < num_waves)%nat /\ default ∅ wave_params !! i = None) ->
     exists j, (j < num_waves)%nat /\ default ∅ wave_params !! j = None /\
       generate_irregular_waves grid_size num_waves length_scale time speed
         wave_params rs
       = (Raise (KeyError j), {| np_random := rs; dict := default ∅ wave_params |})).
  { intros time wave_params Ht [i [Hi Hnone]]. rewrite generate_unfold.
    destruct (for_range_reuse_missing length_scale time speed
                (on_mesh (fun xc _ => xc) (linspace 0 (2 * PI) grid_size)
                   (linspace 0 (2 * PI) grid_size))
                (on_mesh (fun _ yr => yr) (linspace 0 (2 * PI) grid_size)
                   (linspace 0 (2 * PI) grid_size))
                Ht (seq 0 num_waves)
                (on_mesh (fun _ _ => 0%R) (linspace 0 (2 * PI) grid_size)
                   (linspace 0 (2 * PI) grid_size))
                {| np_random := rs; dict := default ∅ wave_params |})
      as [j [Hj [Hn Hr]]].
    { exists i. split; [apply in_seq; lia | exact Hnone]. }
    exists j. apply in_seq in Hj. rewrite Hr. repeat split; [lia | exact Hn]. }
  assert (Hempty : forall time wave_params,
     time <> 0%R ->
     (0 < num_waves)%nat ->
     wave_params = None \/ wave_params = Some ∅ ->
     fst (generate_irregular_waves grid_size num_waves length_scale time speed
            wave_params rs)
     = Raise (KeyError 0)).
  { intros time wave_params Ht Hn Hwp. rewrite generate_unfold.
    assert (Hd : default ∅ wave_params = (∅ : gmap nat WaveComponent))
      by (destruct Hwp as [-> | ->]; reflexivity).
    rewrite Hd. destruct num_waves as [|n]; [lia |].
    cbn [seq for_range]. unfold bind at 1.
    rewrite loop_body_reuse by exact Ht. cbn [dict].
    rewrite lookup_empty. reflexivity. }
  split; [exact Hgen |]. split; [exact Hempty |].
  intros wave_params. apply Hempty. lra.
Qed.

Lemma missing_parameter_raises_key_error_witness :
  fst (generate_irregular_waves 2 3 10 5 1 None half_random) = Raise (KeyError 0).
Proof.
  apply (proj2 (proj2 (missing_parameter_raises_key_error 2 3 10 1 half_random))).
  - lia.
  - left. reflexivity.
Defined.

(** C6. At a non-zero time, on a populated mapping, the call returns the
    mapping it was given and leaves it as it was: no entry is added, removed
    or changed, and no draw is consumed.  The same holds along any sequence
    of such calls that thread the mapping, in particular after the call at
    time zero that established it. *)
Theorem parameters_unchanged_after_zero (grid_size num_waves : nat)
    (length_scale speed : R) :
  (forall time d rs,
     time <> 0%R ->
     populated d num_waves ->
     exists eta,
       generate_irregular_waves grid_size num_waves length_scale time speed (Some d) rs
       = (Return (eta, d), {| np_random := rs; dict := d |})) /\
  (forall times d rs,
     Forall (fun time => time <> 0%R) times ->
     populated d num_waves ->
     exists etas,
       run_frames grid_size num_waves length_scale speed times (Some d) rs
       = (Return (etas, Some d), {| np_random := rs; dict := d |})) /\
  (forall times wave_params rs eta0 d0 s0,
     Forall (fun time => time <> 0%R) times ->
     generate_irregular_waves grid_size num_waves length_scale 0 speed wave_params rs
     = (Return (eta0, d0), s0) ->
     exists etas,
       run_frames grid_size num_waves length_scale speed (0%R :: times) wave_params rs
       = (Return (eta0 :: etas, Some d0), s0)).
Proof.
  assert (Hone : forall time d rs,
     time <> 0%R ->
     populated d num_waves ->
     exists eta,
       generate_irregular_waves grid_size num_waves length_scale time speed (Some d) rs
       = (Return (eta, d), {| np_random := rs; dict := d |})).
  { intros time d rs Ht Hd. eexists. apply generate_reuse; assumption. }
  assert (Hseq : forall times d rs,
     Forall (fun time => time <> 0%R) times ->
     populated d num_waves ->
     exists etas,
       run_frames grid_size num_waves length_scale speed times (Some d) rs
       = (Return (etas, Some d), {| np_random := rs; dict := d |})).
  { intros times d rs Hts Hd. induction Hts as [|time later Ht _ IH].
    - exists []. reflexivity.
    - destruct IH as [etas IH]. cbn [run_frames].
      rewrite generate_reuse by assumption. cbn [np_random]. rewrite IH.
      eexists. reflexivity. }
  split; [exact Hone |]. split; [exact Hseq |].
  intros times wave_params rs eta0 d0 s0 Hts Hrun.
  pose proof (generate_fresh_inv _ _ _ _ _ _ _ _ _ Hrun) as [Hnz Hd0].
  assert (Hs0 : dict s0 = d0).
  { rewrite generate_fresh in Hrun by exact Hnz.
    injection Hrun as _ _ <-. cbn [dict]. now rewrite Hd0. }
  assert (Hpop : populated d0 num_waves).
  { intros i Hi. rewrite Hd0.
    rewrite <- (Nat.add_0_l i). rewrite populate_lookup_seq by exact Hi. eauto. }
  destruct (Hseq times d0 (np_random s0) Hts Hpop) as [etas Hrest].
  exists etas. cbn [run_frames]. rewrite Hrun, Hrest.
  destruct s0 as [g0 dd]. cbn [np_random dict] in *. now subst dd.
Qed.

Lemma parameters_unchanged_after_zero_witness :
  exists eta,
    generate_irregular_waves 2 1 10 5 1 (Some sample_params) half_random
    = (Return (eta, sample_params),
       {| np_random := half_random; dict := sample_params |}).
Proof.
  apply (proj1 (parameters_unchanged_after_zero 2 1 10 1)).
  - exact five_nonzero.
  - exact sample_params_populated.
Defined.

(** With the first generator the component drawn has amplitude 1/20, wave
    numbers 0 and phase π/2: its term is 1/20 everywhere. *)
Lemma term_quarter_phase (x y : R) :
  term (drawn_component 10 1 quarter_phase_stream 0) 0 x y = (1 / 20)%R.
Proof.
  unfold term, drawn_component, quarter_phase_stream. cbn.
  replace (2 * (1 / 2) - 1)%R with 0%R by lra.
  rewrite !Rmult_0_r, !Rmult_0_l.
  replace (0 + 0 - 0 + 2 * PI * (1 / 4))%R with (PI / 2)%R by lra.
  rewrite sin_PI2. lra.
Qed.

(** With the second the amplitude is 0: its term is 0 everywhere. *)
Lemma term_zero_amplitude (x y : R) :
  term (drawn_component 10 1 zero_amplitude_stream 0) 0 x y = 0%R.
Proof.
  unfold term, drawn_component, zero_amplitude_stream. cbn.
  unfold Rdiv at 1. rewrite !Rmult_0_l. reflexivity.
Qed.

Lemma quarter_phase_wavelength (k : nat) :
  (k < 1)%nat ->
  (stream quarter_phase_random (position quarter_phase_random + 5 * k + 1) * 10)%R <> 0%R.
Proof.
  intros Hk. assert (k = 0)%nat as -> by lia.
  cbn. unfold quarter_phase_stream. cbn. lra.
Qed.

Lemma zero_amplitude_wavelength (k : nat) :
  (k < 1)%nat ->
  (stream zero_amplitude_random (position zero_amplitude_random + 5 * k + 1) * 10)%R <> 0%R.
Proof.
  intros Hk. assert (k = 0)%nat as -> by lia.
  cbn. unfold zero_amplitude_stream, quarter_phase_stream. cbn. lra.
Qed.

(** C2 (as amended). At a non-zero time, two calls with the same arguments
    and the same populated mapping return the same field, whatever the state
    of the random generator at each call. *)
Theorem field_deterministic_at_nonzero_time (grid_size num_waves : nat)
    (length_scale time speed : R) (d : gmap nat WaveComponent)
    (rs1 rs2 : RandomState) :
  time <> 0%R ->
  populated d num_waves ->
  exists eta,
    field_of (fst (generate_irregular_waves grid_size num_waves length_scale time
                     speed (Some d) rs1)) = Some eta /\
    field_of (fst (generate_irregular_waves grid_size num_waves length_scale time
                     speed (Some d) rs2)) = Some eta.
Proof.
  intros Ht Hd. exists (height_field d grid_size num_waves time).
  rewrite !generate_reuse by assumption. split; reflexivity.
Qed.

Lemma field_deterministic_at_nonzero_time_witness :
  exists eta,
    field_of (fst (generate_irregular_waves 2 1 10 5 1 (Some sample_params)
                     quarter_phase_random)) = Some eta /\
    field_of (fst (generate_irregular_waves 2 1 10 5 1 (Some sample_params)
                     zero_amplitude_random)) = Some eta.
Proof.
  exact (field_deterministic_at_nonzero_time 2 1 10 5 1 sample_params
           quarter_phase_random zero_amplitude_random
           five_nonzero sample_params_populated).
Defined.

(** C2, as stated, fails at time zero: the call redraws the component and
    ignores the populated mapping, so two calls that meet the generator in
    different states return different fields (here 1/20 and 0 on the
    one-point grid). *)
Lemma field_not_deterministic_at_zero_time :
  populated sample_params 1 /\
  field_of (fst (generate_irregular_waves 1 1 10 0 1 (Some sample_params)
                   quarter_phase_random)) = Some [[(0 + 1 / 20)%R]] /\
  field_of (fst (generate_irregular_waves 1 1 10 0 1 (Some sample_params)
                   zero_amplitude_random)) = Some [[(0 + 0)%R]] /\
  field_of (fst (generate_irregular_waves 1 1 10 0 1 (Some sample_params)
                   quarter_phase_random))
  <> field_of (fst (generate_irregular_waves 1 1 10 0 1 (Some sample_params)
                      zero_amplitude_random)).
Proof.
  assert (Ha : field_of (fst (generate_irregular_waves 1 1 10 0 1 (Some sample_params)
                   quarter_phase_random)) = Some [[(0 + 1 / 20)%R]]).
  { rewrite generate_fresh by exact quarter_phase_wavelength.
    cbn [fst field_of linspace on_mesh map drawn_sum stream position
         quarter_phase_random].
    now rewrite term_quarter_phase. }
  assert (Hb : field_of (fst (generate_irregular_waves 1 1 10 0 1 (Some sample_params)
                   zero_amplitude_random)) = Some [[(0 + 0)%R]]).
  { rewrite generate_fresh by exact zero_amplitude_wavelength.
    cbn [fst field_of linspace on_mesh map drawn_sum stream position
         zero_amplitude_random].
    now rewrite term_zero_amplitude. }
  split; [exact sample_params_populated |].
  split; [exact Ha |]. split; [exact Hb |].
  rewrite Ha, Hb. intros H. injection H as H. lra.
Qed.

(** C7 (as amended). With one wave and a mapping whose component 0 has
    amplitude 1, kx 1, ky 0, phase 0 and frequency 0 (any wavelength), the
    field returned at any non-zero time is sin(x) on every row: an entry
    depends on its x coordinate only. *)
Theorem single_wave_is_sine_of_x (grid_size : nat) (length_scale time speed : R)
    (d : gmap nat WaveComponent) (c : WaveComponent) (rs : RandomState) :
  time <> 0%R ->
  d !! 0%nat = Some c ->
  amplitude c = 1%R -> kx c = 1%R -> ky c = 0%R -> phase c = 0%R ->
  frequency c = 0%R ->
  generate_irregular_waves grid_size 1 length_scale time speed (Some d) rs
  = (Return (on_mesh (fun x _ => sin x)
               (linspace 0 (2 * PI) grid_size) (linspace 0 (2 * PI) grid_size), d),
     {| np_random := rs; dict := d |}).
Proof.
  intros Ht Hc Ha Hkx Hky Hph Hfr.
  rewrite generate_reuse.
  - do 3 f_equal. unfold height_field. apply on_mesh_ext. intros a b.
    unfold superposition. cbn [seq fold_left]. rewrite Hc.
    unfold term. rewrite Ha, Hkx, Hky, Hph, Hfr.
    rewrite Rplus_0_l, Rmult_1_l. f_equal. ring.
  - exact Ht.
  - intros i Hi. assert (i = 0)%nat as -> by lia. eauto.
Qed.

Lemma single_wave_is_sine_of_x_witness :
  generate_irregular_waves 4 1 10 5 1 (Some sample_params) half_random
  = (Return (on_mesh (fun x _ => sin x)
               (linspace 0 (2 * PI) 4) (linspace 0 (2 * PI) 4), sample_params),
     {| np_random := half_random; dict := sample_params |}).
Proof.
  apply (single_wave_is_sine_of_x 4 10 5 1 sample_params sample_component half_random).
  - exact five_nonzero.
  - apply lookup_singleton_eq.
  - reflexivity.
  - reflexivity.
  - reflexivity.
  - reflexivity.
  - reflexivity.
Defined.

(** C7, as stated, fails at time zero: the supplied component is overwritten
    by a drawn one.  On the five-point grid, with a draw of 0 for the
    amplitude, the entry of row 0 and column 1 (x = π/2) is 0, not
    sin(π/2) = 1. *)
Lemma single_wave_not_sine_at_zero_time :
  field_of (fst (generate_irregular_waves 5 1 10 0 1 (Some sample_params)
                   zero_amplitude_random))
  <> Some (on_mesh (fun x _ => sin x)
             (linspace 0 (2 * PI) 5) (linspace 0 (2 * PI) 5)).
Proof.
  rewrite generate_fresh by exact zero_amplitude_wavelength.
  cbn [fst field_of]. intros H.
  apply (f_equal (fun o : option Field =>
                    match o with
                    | Some a => nth 1 (nth 0 a []) 0%R
                    | None => 0%R
                    end)) in H.
  cbn [linspace seq map app on_mesh nth drawn_sum stream position
       zero_amplitude_random] in H.
  rewrite term_zero_amplitude in H.
  replace (INR 1 * ((2 * PI - 0) / INR 4) + 0)%R with (PI / 2)%R in H
    by (simpl INR; field).
  rewrite sin_PI2 in H. lra.
Qed.

(** C3. At time zero, from an empty or absent mapping, a positive length
    scale and draws in [0, 1): the mapping returned has exactly the indices
    0 .. num_waves-1, and each of its entries has its amplitude in [0, 0.1)
    and its wavelength strictly between 0 and [length_scale]; and the call
    does return whenever no wavelength draw is zero. *)
Theorem zero_time_generation_complete (grid_size num_waves : nat)
    (length_scale speed : R) (wave_params : option (gmap nat WaveComponent))
    (rs : RandomState) :
  wave_params = None \/ wave_params = Some ∅ ->
  (0 < length_scale)%R ->
  unit_interval (stream rs) ->
  (forall eta d s,
     generate_irregular_waves grid_size num_waves length_scale 0 speed wave_params rs
     = (Return (eta, d), s) ->
     dom d = set_seq 0 num_waves /\
     size d = num_waves /\
     forall i c, d !! i = Some c ->
       (0 <= amplitude c < 1 / 10)%R /\ (0 < wavelength c < length_scale)%R) /\
  ((forall k, (k < num_waves)%nat -> stream rs (position rs + 5 * k + 1) <> 0%R) ->
   exists eta d s,
     generate_irregular_waves grid_size num_waves length_scale 0 speed wave_params rs
     = (Return (eta, d), s)).
Proof.
  intros Hwp Hls Hu.
  assert (Hd0 : default ∅ wave_params = (∅ : gmap nat WaveComponent))
    by (destruct Hwp as [-> | ->]; reflexivity).
  split.
  - intros eta d s Hrun.
    apply generate_fresh_inv in Hrun. destruct Hrun as [Hnz Hd].
    rewrite Hd0 in Hd.
    assert (Hdom : dom d = set_seq 0 num_waves).
    { rewrite Hd, populate_dom_seq, dom_empty_L. apply (left_id_L ∅ (∪)). }
    split; [exact Hdom |]. split.
    { rewrite <- (size_dom d), Hdom. apply size_set_seq. }
    intros i c Hc.
    assert (Hi : (i < num_waves)%nat).
    { assert (Hin : i ∈ dom d) by (apply elem_of_dom; eauto).
      rewrite Hdom in Hin. apply elem_of_set_seq in Hin. lia. }
    rewrite Hd, <- (Nat.add_0_l i), populate_lookup_seq in Hc by exact Hi.
    injection Hc as <-. cbn [amplitude wavelength drawn_component].
    change (i + (i + (i + (i + (i + 0)))))%nat with (5 * i)%nat.
    destruct (Hu (position rs + 5 * i)%nat) as [Ha0 Ha1].
    destruct (Hu (position rs + 5 * i + 1)%nat) as [Hw0 Hw1].
    specialize (Hnz i Hi). split; [split; lra |]. split; [| nra].
    destruct (Rle_lt_or_eq_dec _ _ Hw0) as [Hpos | Hzero].
    + nra.
    + rewrite <- Hzero in Hnz. lra.
  - intros Hnz. do 3 eexists. apply generate_fresh.
    intros k Hk. specialize (Hnz k Hk).
    apply Rmult_integral_contrapositive_currified; [exact Hnz | lra].
Qed.

(** C4. Every component the call at time zero stores, one per index below
    [num_waves], has its frequency equal to
    (speed / 2π) · sqrt(kx² + ky²) for its own kx and ky; and the call does
    return whenever no wavelength is zero. *)
Theorem dispersion_relation_at_zero_time (grid_size num_waves : nat)
    (length_scale speed : R) (wave_params : option (gmap nat WaveComponent))
    (rs : RandomState) :
  (forall eta d s,
     generate_irregular_waves grid_size num_waves length_scale 0 speed wave_params rs
     = (Return (eta, d), s) ->
     forall i, (i < num_waves)%nat ->
       exists c, d !! i = Some c /\
         frequency c = (speed / (2 * PI) * sqrt (kx c ^ 2 + ky c ^ 2))%R) /\
  ((forall k, (k < num_waves)%nat ->
      (stream rs (position rs + 5 * k + 1) * length_scale)%R <> 0%R) ->
   exists eta d s,
     generate_irregular_waves grid_size num_waves length_scale 0 speed wave_params rs
     = (Return (eta, d), s)).
Proof.
  split.
  - intros eta d s Hrun i Hi.
    apply generate_fresh_inv in Hrun. destruct Hrun as [_ ->].
    rewrite <- (Nat.add_0_l i), populate_lookup_seq by exact Hi.
    eexists. split; reflexivity.
  - intros Hnz. do 3 eexists. apply generate_fresh. exact Hnz.
Qed.

Lemma half_stream_unit_interval : unit_interval (stream half_random).
Proof. intros n. cbn. unfold half_stream. lra. Qed.

Lemma half_stream_wavelength (k : nat) :
  (k < 1)%nat ->
  (stream half_random (position half_random + 5 * k + 1) * 10)%R <> 0%R.
Proof. intros _. cbn [stream half_random]. unfold half_stream. lra. Qed.

Lemma zero_time_generation_complete_witness :
  (0 < 10)%R /\ unit_interval (stream half_random) /\
  exists eta d s,
    generate_irregular_waves 2 1 10 0 1 None half_random = (Return (eta, d), s) /\
    dom d = set_seq 0 1 /\
    size d = 1%nat /\
    forall i c, d !! i = Some c ->
      (0 <= amplitude c < 1 / 10)%R /\ (0 < wavelength c < 10)%R.
Proof.
  assert (Hls : (0 < 10)%R) by lra.
  split; [exact Hls |]. split; [exact half_stream_unit_interval |].
  destruct (zero_time_generation_complete 2 1 10 1 None half_random
              (or_introl eq_refl) Hls half_stream_unit_interval) as [Hinv Hret].
  destruct Hret as [eta [d [s Hrun]]].
  { intros k _. cbn [stream half_random]. unfold half_stream. lra. }
  exists eta, d, s. split; [exact Hrun |]. exact (Hinv eta d s Hrun).
Defined.

Lemma dispersion_relation_at_zero_time_witness :
  exists eta d s,
    generate_irregular_waves 2 1 10 0 1 None half_random = (Return (eta, d), s) /\
    forall i, (i < 1)%nat ->
      exists c, d !! i = Some c /\
        frequency c = (1 / (2 * PI) * sqrt (kx c ^ 2 + ky c ^ 2))%R.
Proof.
  destruct (dispersion_relation_at_zero_time 2 1 10 1 None half_random)
    as [Hinv Hret].
  destruct (Hret half_stream_wavelength) as [eta [d [s Hrun]]].
  exists eta, d, s. split; [exact Hrun |]. exact (Hinv eta d s Hrun).
Defined.

(** C10 (as amended). The division 2π/wavelength of the branch at time zero
    is unguarded and the wavelength drawn can be zero: when the draw for the
    wavelength of some component is exactly 0 the call raises
    [ZeroDivisionError] and returns neither a field nor a mapping; when it
    is the draw of the first component, two draws were consumed and nothing
    was stored. *)
Theorem zero_wavelength_raises (grid_size num_waves : nat) (length_scale speed : R)
    (wave_params : option (gmap nat WaveComponent)) (rs : RandomState) :
  (forall k, (k < num_waves)%nat ->
     stream rs (position rs + 5 * k + 1) = 0%R ->
     fst (generate_irregular_waves grid_size num_waves length_scale 0 speed
            wave_params rs)
     = Raise ZeroDivisionError) /\
  ((0 < num_waves)%nat ->
   stream rs (position rs + 1) = 0%R ->
   generate_irregular_waves grid_size num_waves length_scale 0 speed wave_params rs
   = (Raise ZeroDivisionError,
      {| np_random := advance 2 rs; dict := default ∅ wave_params |})).
Proof.
  split.
  - intros k Hk Hz. apply generate_fresh_raises.
    exists k. split; [exact Hk |]. rewrite Hz. apply Rmult_0_l.
  - intros Hn Hz. rewrite generate_unfold.
    destruct num_waves as [|n]; [lia |].
    cbn [seq for_range]. unfold bind at 1. rewrite loop_body_fresh.
    unfold bind at 1. rewrite fresh_component_raises; [reflexivity |].
    rewrite Hz. apply Rmult_0_l.
Qed.

Lemma zero_wavelength_raises_witness :
  generate_irregular_waves 2 1 10 0 1 None zero_random
  = (Raise ZeroDivisionError, {| np_random := advance 2 zero_random; dict := ∅ |}).
Proof.
  apply (proj2 (zero_wavelength_raises 2 1 10 1 None zero_random)).
  - lia.
  - reflexivity.
Defined.

(** C10, as stated, fails: with a draw of 0 for the wavelength (a value
    [np.random.rand()] can return) the call does not return a field holding
    non-finite values, it raises. *)
Lemma zero_wavelength_returns_no_field :
  unit_interval (stream zero_random) /\
  fst (generate_irregular_waves 2 1 10 0 1 None zero_random) = Raise ZeroDivisionError /\
  ~ (exists eta d,
       fst (generate_irregular_waves 2 1 10 0 1 None zero_random) = Return (eta, d)).
Proof.
  assert (H : fst (generate_irregular_waves 2 1 10 0 1 None zero_random)
              = Raise ZeroDivisionError).
  { apply generate_fresh_raises. exists 0%nat. split; [lia |].
    cbn. apply Rmult_0_l. }
  split; [| split; [exact H |]].
  - intros n. cbn. lra.
  - intros [eta [d Hr]]. rewrite H in Hr. discriminate.
Qed.

(** ** Further properties of the generator *)

Lemma drawn_sum_fold (length_scale speed : R) (draws : nat -> R)
    (d : gmap nat WaveComponent) (time x y : R) (len a p : nat) (acc : R) :
  (forall k, (k < len)%nat ->
     d !! (a + k)%nat = Some (drawn_component length_scale speed draws (p + 5 * k))) ->
  drawn_sum length_scale speed draws p len time x y acc
  = fold_left (add_term d time x y) (seq a len) acc.
Proof.
  revert a p acc. induction len as [|len IH]; intros a p acc Hd.
  - reflexivity.
  - cbn [drawn_sum seq fold_left]. unfold add_term at 2.
    pose proof (Hd 0%nat ltac:(lia)) as H0.
    replace (a + 0)%nat with a in H0 by lia.
    replace (p + 5 * 0)%nat with p in H0 by lia.
    rewrite H0. apply IH. intros k Hk.
    replace (S a + k)%nat with (a + S k)%nat by lia.
    rewrite Hd by lia. do 2 f_equal. lia.
Qed.

Lemma for_range_app (l1 l2 : list nat) (body : nat -> Field -> Py Field)
    (eta : Field) (s : Store) :
  for_range (l1 ++ l2) body eta s
  = bind (for_range l1 body eta) (for_range l2 body) s.
Proof.
  revert eta s. induction l1 as [|i l1 IH]; intros eta s.
  - reflexivity.
  - cbn [app for_range]. unfold bind.
    destruct (body i eta s) as [[eta1 | e] s1]; [| reflexivity].
    rewrite IH. reflexivity.
Qed.

(** The outcome of a call that returns, at any time, in terms of the mapping
    it returns. *)
Lemma generate_returns_height_field (grid_size num_waves : nat)
    (length_scale time speed : R) (wave_params : option (gmap nat WaveComponent))
    (rs : RandomState) (eta : Field) (d : gmap nat WaveComponent) (s : Store) :
  generate_irregular_waves grid_size num_waves length_scale time speed wave_params rs
  = (Return (eta, d), s) ->
  eta = height_field d grid_size num_waves time /\ populated d num_waves /\ dict s = d.
Proof.
  intros Hrun. destruct (Req_dec_T time 0) as [-> | Ht].
  - pose proof (generate_fresh_inv _ _ _ _ _ _ _ _ _ Hrun) as [Hnz Hd].
    rewrite generate_fresh in Hrun by exact Hnz.
    injection Hrun as Heta _ Hs. rewrite <- Hd in Hs.
    assert (Hlook : forall k, (k < num_waves)%nat ->
              d !! (0 + k)%nat
              = Some (drawn_component length_scale speed (stream rs)
                        (position rs + 5 * k))).
    { intros k Hk. rewrite Hd. apply populate_lookup_seq. exact Hk. }
    split; [| split].
    + rewrite <- Heta. unfold height_field. apply on_mesh_ext. intros a b.
      rewrite <- superposition_fold. apply drawn_sum_fold. exact Hlook.
    + intros i Hi. specialize (Hlook i Hi). cbn in Hlook. eauto.
    + rewrite <- Hs. reflexivity.
  - rewrite generate_unfold in Hrun. cbv zeta in Hrun.
    set (xs := linspace 0 (2 * PI) grid_size) in *.
    set (X := on_mesh (fun xc _ : R => xc) xs xs) in *.
    set (Y := on_mesh (fun _ yr : R => yr) xs xs) in *.
    set (Z := on_mesh (fun _ _ : R => 0%R) xs xs) in *.
    set (s0 := {| np_random := rs; dict := default ∅ wave_params |}) in *.
    destruct (for_range (seq 0 num_waves) (loop_body length_scale time speed X Y) Z s0)
      as [[eta1 | e] s1] eqn:Hloop; [| discriminate].
    pose proof (for_range_reuse_store length_scale time speed X Y Ht
                  (seq 0 num_waves) Z s0) as Hstore.
    rewrite Hloop in Hstore. cbn [snd] in Hstore. subst s1.
    injection Hrun as <- <- <-.
    assert (Hpop : populated (default ∅ wave_params) num_waves).
    { intros i Hi. destruct (default ∅ wave_params !! i) as [c|] eqn:Hc; [eauto |].
      destruct (for_range_reuse_missing length_scale time speed X Y Ht
                  (seq 0 num_waves) Z s0) as [j [_ [_ Hr]]].
      { exists i. split; [apply in_seq; lia | exact Hc]. }
      rewrite Hloop in Hr. discriminate. }
    split; [| split; [exact Hpop | reflexivity]].
    subst X Y Z. rewrite for_range_reuse_sum in Hloop.
    + injection Hloop as <-. reflexivity.
    + exact Ht.
    + intros i Hi. apply Hpop. apply in_seq in Hi. lia.
Qed.

Lemma map_lookup {A B : Type} (f : A -> B) (l : list A) (i : nat) :
  map f l !! i = option_map f (l !! i).
Proof.
  revert i. induction l as [|a l IH]; intros [|i]; simpl; try reflexivity. apply IH.
Qed.

(** An entry of an array on a mesh is the function at the coordinates of its
    column and of its row. *)
Lemma entry_on_mesh (f : R -> R -> R) (xs ys : list R) (r c : nat) :
  entry (on_mesh f xs ys) r c
  = match ys !! r, xs !! c with
    | Some y, Some x => Some (f x y)
    | _, _ => None
    end.
Proof.
  unfold entry, on_mesh. rewrite map_lookup.
  destruct (ys !! r) as [y|]; cbn; [| reflexivity].
  rewrite map_lookup. destruct (xs !! c); reflexivity.
Qed.

Lemma linspace_lookup (start stop : R) (num j : nat) :
  (2 <= num)%nat -> (j < num)%nat ->
  linspace start stop num !! j
  = Some (start + INR j * (stop - start) / INR (num - 1))%R.
Proof.
  intros Hn Hj. destruct num as [|[|n]]; [lia | lia |].
  unfold linspace. replace (S (S n) - 1)%nat with (S n) by lia.
  assert (Hne : INR (S n) <> 0%R) by (apply not_0_INR; lia).
  destruct (Nat.eq_dec j (S n)) as [-> | Hlt].
  - rewrite lookup_app_r; rewrite length_map, length_seq; [| lia].
    rewrite Nat.sub_diag. cbn [lookup list_lookup]. f_equal. field. exact Hne.
  - rewrite lookup_app_l by (rewrite length_map, length_seq; lia).
    rewrite map_lookup, lookup_seq_lt by lia. cbn [option_map].
    f_equal. cbn [Nat.add]. field. exact Hne.
Qed.

Lemma Rabs_sin_le_1 (x : R) : (Rabs (sin x) <= 1)%R.
Proof. apply Rabs_le. pose proof (SIN_bound x) as [H1 H2]. split; lra. Qed.

Lemma Rabs_term_le (c : WaveComponent) (time x y : R) :
  (Rabs (term c time x y) <= Rabs (amplitude c))%R.
Proof.
  unfold term. rewrite Rabs_mult.
  pose proof (Rabs_sin_le_1 (kx c * x + ky c * y - frequency c * time + phase c)).
  pose proof (Rabs_pos (amplitude c)). nra.
Qed.

Lemma superposition_fold_bound (d : gmap nat WaveComponent) (time x y : R)
    (indices : list nat) (acc bound : R) :
  (Rabs acc <= bound)%R ->
  (Rabs (fold_left (add_term d time x y) indices acc)
   <= fold_left
        (fun b i =>
           match d !! i with
           | Some c => (b + Rabs (amplitude c))%R
           | None => b
           end) indices bound)%R.
Proof.
  revert acc bound. induction indices as [|i rest IH]; intros acc bound Hb.
  - exact Hb.
  - cbn [fold_left]. apply IH. unfold add_term.
    destruct (d !! i) as [c|]; [| exact Hb].
    pose proof (Rabs_triang acc (term c time x y)).
    pose proof (Rabs_term_le c time x y). lra.
Qed.

Lemma superposition_bound (d : gmap nat WaveComponent) (num_waves : nat) (time x y : R) :
  (Rabs (superposition d num_waves time x y) <= amplitude_sum d num_waves)%R.
Proof.
  rewrite <- superposition_fold. apply superposition_fold_bound.
  rewrite Rabs_R0. lra.
Qed.

Lemma amplitude_fold_le (d : gmap nat WaveComponent) (bound : R) (indices : list nat)
    (acc : R) :
  (forall i c, In i indices -> d !! i = Some c -> (Rabs (amplitude c) <= bound)%R) ->
  (0 <= bound)%R ->
  (fold_left
     (fun b i =>
        match d !! i with
        | Some c => (b + Rabs (amplitude c))%R
        | None => b
        end) indices acc
   <= acc + INR (length indices) * bound)%R.
Proof.
  intros Hall Hb. revert acc. induction indices as [|i rest IH]; intros acc.
  - cbn. lra.
  - cbn [fold_left length]. rewrite S_INR.
    etransitivity; [apply IH; intros j c Hj; apply Hall; now right |].
    destruct (d !! i) as [c|] eqn:Hc.
    + pose proof (Hall i c (or_introl eq_refl) Hc). nra.
    + nra.
Qed.

Lemma height_field_entry_bound (d : gmap nat WaveComponent) (grid_size num_waves : nat)
    (time : R) (r c : nat) (v : R) :
  entry (height_field d grid_size num_waves time) r c = Some v ->
  (Rabs v <= amplitude_sum d num_waves)%R.
Proof.
  unfold height_field. rewrite entry_on_mesh.
  destruct (_ !! r) as [y|]; [| discriminate].
  destruct (_ !! c) as [x|]; [| discriminate].
  intros H. injection H as <-. apply superposition_bound.
Qed.

Lemma for_range_reuse_agree (length_scale1 speed1 length_scale2 speed2 time : R)
    (x y : Field) (indices : list nat) (eta : Field) (s1 s2 : Store) :
  time <> 0%R ->
  (forall i, In i indices -> dict s1 !! i = dict s2 !! i) ->
  fst (for_range indices (loop_body length_scale1 time speed1 x y) eta s1)
  = fst (for_range indices (loop_body length_scale2 time speed2 x y) eta s2).
Proof.
  intros Ht. revert eta. induction indices as [|i rest IH]; intros eta Hagree.
  - reflexivity.
  - cbn [for_range]. unfold bind. rewrite !loop_body_reuse by exact Ht.
    rewrite (Hagree i (or_introl eq_refl)).
    destruct (dict s2 !! i); [| reflexivity].
    apply IH. intros j Hj. apply Hagree. now right.
Qed.

Lemma for_range_reuse_first_missing (length_scale time speed : R) (x y : Field)
    (len a j : nat) (eta : Field) (s : Store) :
  time <> 0%R ->
  (a <= j < a + len)%nat ->
  dict s !! j = None ->
  (forall i, (a <= i < j)%nat -> is_Some (dict s !! i)) ->
  for_range (seq a len) (loop_body length_scale time speed x y) eta s
  = (Raise (KeyError j), s).
Proof.
  intros Ht. revert a eta. induction len as [|len IH]; intros a eta Hj Hnone Hbefore.
  - lia.
  - cbn [seq for_range]. unfold bind. rewrite loop_body_reuse by exact Ht.
    destruct (Nat.eq_dec a j) as [-> | Hne].
    + now rewrite Hnone.
    + destruct (Hbefore a ltac:(lia)) as [c Hc]. rewrite Hc.
      apply IH; [lia | exact Hnone |]. intros i Hi. apply Hbefore. lia.
Qed.

Lemma field_of_generate (grid_size num_waves : nat) (length_scale time speed : R)
    (wave_params : option (gmap nat WaveComponent)) (rs : RandomState) :
  let xs := linspace 0 (2 * PI) grid_size in
  field_of (fst (generate_irregular_waves grid_size num_waves length_scale time speed
                   wave_params rs))
  = match fst (for_range (seq 0 num_waves)
                 (loop_body length_scale time speed
                    (on_mesh (fun xc _ => xc) xs xs) (on_mesh (fun _ yr => yr) xs xs))
                 (on_mesh (fun _ _ => 0%R) xs xs)
                 {| np_random := rs; dict := default ∅ wave_params |}) with
    | Return eta => Some eta
    | Raise _ => None
    end.
Proof.
  intros xs. rewrite generate_unfold. fold xs.
  destruct (for_range _ _ _ _) as [[eta | e] s]; reflexivity.
Qed.

(** The call at time zero that meets its first zero wavelength at component
    [j]. *)
Lemma generate_fresh_raises_at (grid_size num_waves : nat) (length_scale speed : R)
    (wave_params : option (gmap nat WaveComponent)) (rs : RandomState) (j : nat) :
  (j < num_waves)%nat ->
  (forall k, (k < j)%nat ->
     (stream rs (position rs + 5 * k + 1) * length_scale)%R <> 0%R) ->
  (stream rs (position rs + 5 * j + 1) * length_scale)%R = 0%R ->
  generate_irregular_waves grid_size num_waves length_scale 0 speed wave_params rs
  = (Raise ZeroDivisionError,
     {| np_random := advance (5 * j + 2) rs;
        dict := populate length_scale speed (stream rs) (position rs) (seq 0 j)
                  (default ∅ wave_params) |}).
Proof.
  intros Hj Hnz Hz. rewrite generate_unfold. cbv zeta.
  replace num_waves with (j + S (num_waves - S j))%nat at 1 by lia.
  rewrite seq_app, for_range_app. unfold bind at 1.
  rewrite for_range_fresh_returns by (rewrite length_seq; exact Hnz).
  rewrite length_seq. cbn [Nat.add seq for_range]. unfold bind at 1.
  rewrite loop_body_fresh. unfold bind at 1.
  rewrite fresh_component_raises.
  - rewrite advance_advance. reflexivity.
  - cbn [stream position advance]. exact Hz.
Qed.

(** X1. Whenever the call returns, at time zero as at any other, the field
    is the superposition of the components of the mapping it returns,
    evaluated at that time: the pair returned is consistent. *)
Theorem returned_field_matches_returned_parameters (grid_size num_waves : nat)
    (length_scale time speed : R) (wave_params : option (gmap nat WaveComponent))
    (rs : RandomState) (eta : Field) (d : gmap nat WaveComponent) (s : Store) :
  generate_irregular_waves grid_size num_waves length_scale time speed wave_params rs
  = (Return (eta, d), s) ->
  eta = on_mesh (superposition d num_waves time)
          (linspace 0 (2 * PI) grid_size) (linspace 0 (2 * PI) grid_size) /\
  populated d num_waves /\
  dict s = d.
Proof. apply generate_returns_height_field. Qed.

Lemma returned_field_matches_returned_parameters_witness :
  exists eta d s,
    generate_irregular_waves 2 1 10 0 1 None half_random = (Return (eta, d), s) /\
    eta = on_mesh (superposition d 1 0) (linspace 0 (2 * PI) 2) (linspace 0 (2 * PI) 2) /\
    populated d 1 /\
    dict s = d.
Proof.
  eexists _, _, _. split.
  - apply generate_fresh. exact half_stream_wavelength.
  - apply (returned_field_matches_returned_parameters 2 1 10 0 1 None half_random).
    apply generate_fresh. exact half_stream_wavelength.
Defined.

(** X2. A call at time zero that returns has consumed exactly five draws per
    wave, and has left the entries of the supplied mapping at indices
    [num_waves] and beyond as they were. *)
Theorem zero_time_keeps_entries_beyond_num_waves (grid_size num_waves : nat)
    (length_scale speed : R) (wave_params : option (gmap nat WaveComponent))
    (rs : RandomState) (eta : Field) (d : gmap nat WaveComponent) (s : Store) :
  generate_irregular_waves grid_size num_waves length_scale 0 speed wave_params rs
  = (Return (eta, d), s) ->
  (forall i, (num_waves <= i)%nat ->
     d !! i = match wave_params with None => ∅ | Some d0 => d0 end !! i) /\
  stream (np_random s) = stream rs /\
  position (np_random s) = (position rs + 5 * num_waves)%nat.
Proof.
  intros Hrun.
  pose proof (generate_fresh_inv _ _ _ _ _ _ _ _ _ Hrun) as [Hnz Hd].
  rewrite generate_fresh in Hrun by exact Hnz. injection Hrun as _ _ <-.
  split; [| split; reflexivity].
  intros i Hi. rewrite Hd. apply populate_lookup_other.
  rewrite in_seq. lia.
Qed.

Lemma zero_time_keeps_entries_beyond_num_waves_witness :
  populate 10 1 half_stream 0 (seq 0 1) sample_params !! 3%nat = sample_params !! 3%nat.
Proof.
  apply (proj1 (zero_time_keeps_entries_beyond_num_waves 2 1 10 1 (Some sample_params)
                  half_random _ _ _
                  (generate_fresh 2 1 10 1 (Some sample_params) half_random
                     half_stream_wavelength)) 3%nat).
  lia.
Defined.

(** X3. At time zero the supplied mapping is not read: two calls that meet
    the generator in the same state return the same field, or both raise,
    whatever mappings they are given, and the entries they store below
    [num_waves] are the same. *)
Theorem zero_time_ignores_supplied_parameters (grid_size num_waves : nat)
    (length_scale speed : R) (wave_params1 wave_params2 : option (gmap nat WaveComponent))
    (rs : RandomState) :
  field_of (fst (generate_irregular_waves grid_size num_waves length_scale 0 speed
                   wave_params1 rs))
  = field_of (fst (generate_irregular_waves grid_size num_waves length_scale 0 speed
                     wave_params2 rs)) /\
  (forall eta1 d1 s1 eta2 d2 s2,
     generate_irregular_waves grid_size num_waves length_scale 0 speed wave_params1 rs
     = (Return (eta1, d1), s1) ->
     generate_irregular_waves grid_size num_waves length_scale 0 speed wave_params2 rs
     = (Return (eta2, d2), s2) ->
     forall i, (i < num_waves)%nat -> d1 !! i = d2 !! i).
Proof.
  split.
  - destruct (zero_among
                (fun k => (stream rs (position rs + 5 * k + 1) * length_scale)%R)
                num_waves) as [Hnz | Hz].
    + rewrite !generate_fresh by exact Hnz. reflexivity.
    + rewrite !generate_fresh_raises by exact Hz. reflexivity.
  - intros eta1 d1 s1 eta2 d2 s2 H1 H2 i Hi.
    apply generate_fresh_inv in H1. apply generate_fresh_inv in H2.
    destruct H1 as [_ ->]. destruct H2 as [_ ->].
    rewrite <- (Nat.add_0_l i). now rewrite !populate_lookup_seq by exact Hi.
Qed.

Lemma zero_time_ignores_supplied_parameters_witness :
  populate 10 1 half_stream 0 (seq 0 1) ∅ !! 0%nat
  = populate 10 1 half_stream 0 (seq 0 1) sample_params !! 0%nat.
Proof.
  apply (proj2 (zero_time_ignores_supplied_parameters 2 1 10 1 None
                  (Some sample_params) half_random)
           _ _ _ _ _ _
           (generate_fresh 2 1 10 1 None half_random half_stream_wavelength)
           (generate_fresh 2 1 10 1 (Some sample_params) half_random
              half_stream_wavelength) 0%nat).
  lia.
Defined.

(** X4. When the first zero wavelength is met at component [j], the call at
    time zero raises [ZeroDivisionError] after [5 j + 2] draws, and the dict
    has been changed in place: the [j] components drawn before are stored,
    the entries at [j] and beyond are as supplied. *)
Theorem zero_wavelength_leaves_earlier_components (grid_size num_waves : nat)
    (length_scale speed : R) (wave_params : option (gmap nat WaveComponent))
    (rs : RandomState) (j : nat) :
  (j < num_waves)%nat ->
  (forall k, (k < j)%nat ->
     (stream rs (position rs + 5 * k + 1) * length_scale)%R <> 0%R) ->
  (stream rs (position rs + 5 * j + 1) * length_scale)%R = 0%R ->
  exists s,
    generate_irregular_waves grid_size num_waves length_scale 0 speed wave_params rs
    = (Raise ZeroDivisionError, s) /\
    stream (np_random s) = stream rs /\
    position (np_random s) = (position rs + (5 * j + 2))%nat /\
    (forall i, (i < j)%nat ->
       dict s !! i
       = Some (drawn_component length_scale speed (stream rs) (position rs + 5 * i))) /\
    (forall i, (j <= i)%nat ->
       dict s !! i = match wave_params with None => ∅ | Some d0 => d0 end !! i).
Proof.
  intros Hj Hnz Hz. eexists. split.
  - apply generate_fresh_raises_at; eassumption.
  - cbn [np_random dict stream position advance].
    split; [reflexivity |]. split; [reflexivity |]. split.
    + intros i Hi. rewrite <- (Nat.add_0_l i) at 1.
      now rewrite populate_lookup_seq by exact Hi.
    + intros i Hi. apply populate_lookup_other. rewrite in_seq. lia.
Qed.

Lemma zero_wavelength_leaves_earlier_components_witness :
  exists s,
    generate_irregular_waves 2 2 10 0 1 None second_wavelength_zero_random
    = (Raise ZeroDivisionError, s) /\
    stream (np_random s) = second_wavelength_zero_stream /\
    position (np_random s) = 7%nat /\
    (forall i, (i < 1)%nat ->
       dict s !! i
       = Some (drawn_component 10 1 second_wavelength_zero_stream (0 + 5 * i))) /\
    (forall i, (1 <= i)%nat -> dict s !! i = (∅ : gmap nat WaveComponent) !! i).
Proof.
  apply (zero_wavelength_leaves_earlier_components 2 2 10 1 None
           second_wavelength_zero_random 1).
  - lia.
  - intros k Hk. assert (k = 0)%nat as -> by lia.
    cbn. unfold second_wavelength_zero_stream. cbn. lra.
  - cbn. unfold second_wavelength_zero_stream. cbn. lra.
Defined.

Lemma generate_reuse_fst (grid_size num_waves : nat) (length_scale time speed : R)
    (wave_params : option (gmap nat WaveComponent)) (rs : RandomState) :
  time <> 0%R ->
  let xs := linspace 0 (2 * PI) grid_size in
  fst (generate_irregular_waves grid_size num_waves length_scale time speed
         wave_params rs)
  = match fst (for_range (seq 0 num_waves)
                 (loop_body length_scale time speed
                    (on_mesh (fun xc _ => xc) xs xs) (on_mesh (fun _ yr => yr) xs xs))
                 (on_mesh (fun _ _ => 0%R) xs xs)
                 {| np_random := rs; dict := default ∅ wave_params |}) with
    | Return eta => Return (eta, default ∅ wave_params)
    | Raise e => Raise e
    end.
Proof.
  intros Ht xs. rewrite generate_unfold. fold xs.
  pose proof (for_range_reuse_store length_scale time speed
                (on_mesh (fun xc _ => xc) xs xs) (on_mesh (fun _ yr => yr) xs xs)
                Ht (seq 0 num_waves) (on_mesh (fun _ _ => 0%R) xs xs)
                {| np_random := rs; dict := default ∅ wave_params |}) as Hs.
  destruct (for_range _ _ _ _) as [[eta | e] s]; cbn [fst snd] in *;
    [subst s |]; reflexivity.
Qed.

(** X5. At a non-zero time the outcome (the field and the mapping, or the
    exception) depends on neither [length_scale], nor [speed], nor the state
    of the random generator. *)
Theorem nonzero_time_ignores_scale_speed_and_generator (grid_size num_waves : nat)
    (length_scale1 speed1 length_scale2 speed2 time : R)
    (wave_params : option (gmap nat WaveComponent)) (rs1 rs2 : RandomState) :
  time <> 0%R ->
  fst (generate_irregular_waves grid_size num_waves length_scale1 time speed1
         wave_params rs1)
  = fst (generate_irregular_waves grid_size num_waves length_scale2 time speed2
           wave_params rs2).
Proof.
  intros Ht. rewrite !generate_reuse_fst by exact Ht. cbv zeta.
  rewrite (for_range_reuse_agree length_scale1 speed1 length_scale2 speed2 time
             _ _ _ _ {| np_random := rs1; dict := default ∅ wave_params |}
             {| np_random := rs2; dict := default ∅ wave_params |} Ht);
    reflexivity.
Qed.

Lemma nonzero_time_ignores_scale_speed_and_generator_witness :
  fst (generate_irregular_waves 2 1 10 5 1 (Some sample_params) half_random)
  = fst (generate_irregular_waves 2 1 3 5 7 (Some sample_params) zero_random).
Proof.
  exact (nonzero_time_ignores_scale_speed_and_generator 2 1 10 1 3 7 5
           (Some sample_params) half_random zero_random five_nonzero).
Defined.

(** X6. At a non-zero time only the entries below [num_waves] are read: two
    mappings that agree there give the same field, and one call raises
    exactly when the other does, with the same exception. *)
Theorem nonzero_time_reads_only_indices_below_num_waves (grid_size num_waves : nat)
    (length_scale time speed : R) (d1 d2 : gmap nat WaveComponent) (rs : RandomState) :
  time <> 0%R ->
  (forall i, (i < num_waves)%nat -> d1 !! i = d2 !! i) ->
  field_of (fst (generate_irregular_waves grid_size num_waves length_scale time speed
                   (Some d1) rs))
  = field_of (fst (generate_irregular_waves grid_size num_waves length_scale time speed
                     (Some d2) rs)) /\
  (forall e,
     fst (generate_irregular_waves grid_size num_waves length_scale time speed
            (Some d1) rs) = Raise e <->
     fst (generate_irregular_waves grid_size num_waves length_scale time speed
            (Some d2) rs) = Raise e).
Proof.
  intros Ht Hagree. rewrite !generate_reuse_fst by exact Ht. cbv zeta.
  cbn [default].
  rewrite (for_range_reuse_agree length_scale speed length_scale speed time
             _ _ (seq 0 num_waves) _ {| np_random := rs; dict := d1 |}
             {| np_random := rs; dict := d2 |} Ht).
  - destruct (fst (for_range _ _ _ _)) as [eta | e0]; cbn [field_of].
    + split; [reflexivity |]. intros e. split; discriminate.
    + split; [reflexivity |]. intros e. reflexivity.
  - intros i Hi. apply in_seq in Hi. cbn [dict]. apply Hagree. lia.
Qed.

Lemma nonzero_time_reads_only_indices_below_num_waves_witness :
  field_of (fst (generate_irregular_waves 2 1 10 5 1 (Some sample_params) half_random))
  = field_of (fst (generate_irregular_waves 2 1 10 5 1
                     (Some (<[7%nat := sample_component]> sample_params)) half_random)).
Proof.
  apply (nonzero_time_reads_only_indices_below_num_waves 2 1 10 5 1 sample_params
           (<[7%nat := sample_component]> sample_params) half_random).
  - exact five_nonzero.
  - intros i Hi. symmetry. apply lookup_insert_ne. lia.
Defined.

(** X7. Every value of a returned field is bounded in absolute value by the
    sum of the absolute amplitudes of the components of the returned mapping
    below [num_waves]. *)
Theorem field_entries_bounded_by_amplitudes (grid_size num_waves : nat)
    (length_scale time speed : R) (wave_params : option (gmap nat WaveComponent))
    (rs : RandomState) (eta : Field) (d : gmap nat WaveComponent) (s : Store)
    (r c : nat) (v : R) :
  generate_irregular_waves grid_size num_waves length_scale time speed wave_params rs
  = (Return (eta, d), s) ->
  entry eta r c = Some v ->
  (Rabs v <= amplitude_sum d num_waves)%R.
Proof.
  intros Hrun Hv. apply generate_returns_height_field in Hrun.
  destruct Hrun as [-> _]. eapply height_field_entry_bound. exact Hv.
Qed.

Lemma sample_field_entry :
  entry (height_field sample_params 2 1 5) 0 1
  = Some (superposition sample_params 1 5 (2 * PI) (INR 0 * ((2 * PI - 0) / INR 1) + 0)).
Proof. reflexivity. Qed.

Lemma field_entries_bounded_by_amplitudes_witness :
  (Rabs (superposition sample_params 1 5 (2 * PI) (INR 0 * ((2 * PI - 0) / INR 1) + 0))
   <= amplitude_sum sample_params 1)%R.
Proof.
  exact (field_entries_bounded_by_amplitudes 2 1 10 5 1 (Some sample_params)
           half_random _ _ _ 0 1 _
           (generate_reuse 2 1 10 5 1 sample_params half_random
              five_nonzero sample_params_populated)
           sample_field_entry).
Defined.

(** X8. With draws in [0, 1), every value of the field returned at time zero
    is at most [num_waves / 10] in absolute value. *)
Theorem zero_time_field_entries_bounded (grid_size num_waves : nat)
    (length_scale speed : R) (wave_params : option (gmap nat WaveComponent))
    (rs : RandomState) (eta : Field) (d : gmap nat WaveComponent) (s : Store)
    (r c : nat) (v : R) :
  unit_interval (stream rs) ->
  generate_irregular_waves grid_size num_waves length_scale 0 speed wave_params rs
  = (Return (eta, d), s) ->
  entry eta r c = Some v ->
  (Rabs v <= INR num_waves / 10)%R.
Proof.
  intros Hu Hrun Hv.
  pose proof (generate_fresh_inv _ _ _ _ _ _ _ _ _ Hrun) as [_ Hd].
  apply generate_returns_height_field in Hrun. destruct Hrun as [-> _].
  apply height_field_entry_bound in Hv.
  etransitivity; [exact Hv |]. unfold amplitude_sum.
  etransitivity; [apply (amplitude_fold_le d (1 / 10)) |].
  - intros i c0 Hi Hc. apply in_seq in Hi.
    rewrite Hd, <- (Nat.add_0_l i), populate_lookup_seq in Hc by lia.
    injection Hc as <-. cbn [amplitude drawn_component].
    change (i + (i + (i + (i + (i + 0)))))%nat with (5 * i)%nat.
    destruct (Hu (position rs + 5 * i)%nat) as [H0 H1].
    apply Rabs_le. split; lra.
  - lra.
  - rewrite length_seq. lra.
Qed.

(** X9. The value at row [r] and column [c] of a returned field is the
    superposition at x = 2π·c/(grid_size−1), y = 2π·r/(grid_size−1): columns
    run along x, rows along y, both from 0 to 2π with the end points
    included. *)
Theorem field_entry_at_grid_point (grid_size num_waves : nat)
    (length_scale time speed : R) (wave_params : option (gmap nat WaveComponent))
    (rs : RandomState) (eta : Field) (d : gmap nat WaveComponent) (s : Store)
    (r c : nat) :
  generate_irregular_waves grid_size num_waves length_scale time speed wave_params rs
  = (Return (eta, d), s) ->
  (2 <= grid_size)%nat ->
  (r < grid_size)%nat -> (c < grid_size)%nat ->
  entry eta r c
  = Some (superposition d num_waves time
            (INR c * (2 * PI) / INR (grid_size - 1))
            (INR r * (2 * PI) / INR (grid_size - 1))).
Proof.
  intros Hrun Hn Hr Hc. apply generate_returns_height_field in Hrun.
  destruct Hrun as [-> _]. unfold height_field. rewrite entry_on_mesh.
  rewrite !linspace_lookup by assumption.
  do 2 f_equal; rewrite Rminus_0_r; apply Rplus_0_l.
Qed.

Lemma field_entry_at_grid_point_witness :
  entry (height_field sample_params 3 1 5) 2 1
  = Some (superposition sample_params 1 5
            (INR 1 * (2 * PI) / INR (3 - 1))
            (INR 2 * (2 * PI) / INR (3 - 1))).
Proof.
  apply (field_entry_at_grid_point 3 1 10 5 1 (Some sample_params) half_random
           _ _ _ 2 1
           (generate_reuse 3 1 10 5 1 sample_params half_random
              five_nonzero sample_params_populated)).
  - lia.
  - lia.
  - lia.
Defined.

(** X10. At a non-zero time the [KeyError] names the least index below
    [num_waves] that the mapping lacks, and the call has changed neither the
    dict nor the generator. *)
Theorem key_error_names_least_missing_index (grid_size num_waves : nat)
    (length_scale time speed : R) (wave_params : option (gmap nat WaveComponent))
    (rs : RandomState) (j : nat) :
  time <> 0%R ->
  (j < num_waves)%nat ->
  match wave_params with None => ∅ | Some d => d end !! j = None ->
  (forall i, (i < j)%nat ->
     is_Some (match wave_params with None => ∅ | Some d => d end !! i)) ->
  generate_irregular_waves grid_size num_waves length_scale time speed wave_params rs
  = (Raise (KeyError j),
     {| np_random := rs;
        dict := match wave_params with None => ∅ | Some d => d end |}).
Proof.
  intros Ht Hj Hnone Hbefore. rewrite generate_unfold. cbv zeta.
  rewrite (for_range_reuse_first_missing length_scale time speed _ _ num_waves 0 j).
  - reflexivity.
  - exact Ht.
  - lia.
  - exact Hnone.
  - intros i Hi. apply Hbefore. lia.
Qed.

Lemma key_error_names_least_missing_index_witness :
  generate_irregular_waves 2 3 10 5 1 (Some sample_params) half_random
  = (Raise (KeyError 1), {| np_random := half_random; dict := sample_params |}).
Proof.
  apply (key_error_names_least_missing_index 2 3 10 5 1 (Some sample_params)
           half_random 1).
  - exact five_nonzero.
  - lia.
  - reflexivity.
  - intros i Hi. assert (i = 0)%nat as -> by lia. exists sample_component.
    reflexivity.
Defined.

(** X11. With a length scale of zero every wavelength is zero: a call at
    time zero that has at least one wave to draw raises [ZeroDivisionError]
    after two draws, whatever the draws are, and stores nothing. *)
Theorem zero_length_scale_raises (grid_size num_waves : nat) (speed : R)
    (wave_params : option (gmap nat WaveComponent)) (rs : RandomState) :
  (0 < num_waves)%nat ->
  generate_irregular_waves grid_size num_waves 0 0 speed wave_params rs
  = (Raise ZeroDivisionError,
     {| np_random := {| stream := stream rs; position := position rs + 2 |};
        dict := match wave_params with None => ∅ | Some d => d end |}).
Proof.
  intros Hn.
  rewrite (generate_fresh_raises_at grid_size num_waves 0 speed wave_params rs 0).
  - reflexivity.
  - exact Hn.
  - intros k Hk. lia.
  - apply Rmult_0_r.
Qed.

Lemma zero_length_scale_raises_witness :
  generate_irregular_waves 2 1 0 0 1 None half_random
  = (Raise ZeroDivisionError,
     {| np_random := {| stream := half_stream; position := 2 |}; dict := ∅ |}).
Proof.
  apply (zero_length_scale_raises 2 1 1 None half_random). lia.
Defined.

Lemma zero_time_field_entries_bounded_witness :
  (Rabs (drawn_sum 10 1 half_stream 0 1 0
           (INR 0 * (2 * PI - 0) + 0) (INR 0 * (2 * PI - 0) + 0) 0)
   <= INR 1 / 10)%R.
Proof.
  exact (zero_time_field_entries_bounded 1 1 10 1 None half_random _ _ _ 0 0 _
           half_stream_unit_interval
           (generate_fresh 1 1 10 1 None half_random half_stream_wavelength)
           eq_refl).
Defined.

(** ** The driver *)

Section FrameLoop.
Variables (grid_size num_waves : nat) (length_scale speed time_interval : R).
Variable output_dir : string.

(** Frames at non-zero times only read the mapping. *)
Lemma frame_loop_reuse (frames : list nat) (d : gmap nat WaveComponent)
    (rs : RandomState) :
  time_interval <> 0%R ->
  populated d num_waves ->
  (forall frame, In frame frames -> frame <> 0%nat) ->
  frame_loop grid_size num_waves length_scale speed time_interval output_dir
    frames (Some d) rs
  = (map (figure_of grid_size num_waves time_interval output_dir d) frames,
     (Return (Some d), {| np_random := rs; dict := d |})).
Proof.
  intros Hdt Hd. induction frames as [|frame later IH]; intros Hframes.
  - reflexivity.
  - cbn [frame_loop map]. rewrite generate_reuse.
    + cbn [np_random]. rewrite IH by (intros f Hf; apply Hframes; now right).
      reflexivity.
    + apply Rmult_integral_contrapositive_currified; [| exact Hdt].
      apply not_0_INR. apply Hframes. now left.
    + exact Hd.
Qed.

(** With a time interval of zero every frame is at time zero and draws
    anew. *)
Lemma frame_loop_redraws (frames : list nat)
    (wave_params : option (gmap nat WaveComponent)) (rs : RandomState) :
  time_interval = 0%R ->
  (forall k, (k < num_waves * length frames)%nat ->
     (stream rs (position rs + 5 * k + 1) * length_scale)%R <> 0%R) ->
  exists figures out s,
    frame_loop grid_size num_waves length_scale speed time_interval output_dir
      frames wave_params rs
    = (figures, (Return out, s)) /\
    length figures = length frames /\
    Forall (fun figure => title_time figure = 0%R) figures /\
    np_random s = advance (5 * (num_waves * length frames)) rs.
Proof.
  intros ->. revert wave_params rs.
  induction frames as [|frame later IH]; intros wave_params rs Hnz.
  - do 3 eexists. split; [reflexivity |]. split; [reflexivity |].
    split; [constructor |]. cbn [np_random length].
    rewrite Nat.mul_0_r. cbn [Nat.mul]. now rewrite advance_0.
  - cbn [frame_loop]. rewrite Rmult_0_r. rewrite generate_fresh.
    2:{ intros k Hk. apply Hnz. cbn [length]. nia. }
    cbn [np_random].
    destruct (IH (Some (populate length_scale speed (stream rs) (position rs)
                          (seq 0 num_waves) (default ∅ wave_params)))
                (advance (5 * num_waves) rs)) as [figures [out [s [Hloop [Hlen [Hall Hs]]]]]].
    { intros k Hk. cbn [stream position advance].
      replace (position rs + 5 * num_waves + 5 * k + 1)%nat
        with (position rs + 5 * (num_waves + k) + 1)%nat by lia.
      apply Hnz. cbn [length]. nia. }
    rewrite Hloop. do 3 eexists. split; [reflexivity |].
    split; [cbn [length]; now rewrite Hlen |].
    split; [constructor; [reflexivity | exact Hall] |].
    rewrite Hs, advance_advance. f_equal. cbn [length]. nia.
Qed.
End FrameLoop.

(** X12. With a non-zero time interval and no zero wavelength among the
    draws of frame 0, the run saves one figure per frame, in order; the
    parameters are drawn once, by frame 0, and the figure of every frame is
    the height field of those same parameters at the time of the frame. *)
Theorem driver_threads_parameters_of_frame_zero (grid_size num_waves : nat)
    (length_scale speed : R) (num_frames : nat) (time_interval : R)
    (output_dir : string) (rs : RandomState) :
  time_interval <> 0%R ->
  (0 < num_frames)%nat ->
  (forall k, (k < num_waves)%nat ->
     (stream rs (position rs + 5 * k + 1) * length_scale)%R <> 0%R) ->
  exists eta0 d0 s0,
    generate_irregular_waves grid_size num_waves length_scale 0 speed None rs
    = (Return (eta0, d0), s0) /\
    driver grid_size num_waves length_scale speed num_frames time_interval
      output_dir rs
    = (map (fun frame =>
              {| file := frame_file output_dir frame;
                 title_time := (INR frame * time_interval)%R;
                 contour := height_field d0 grid_size num_waves
                              (INR frame * time_interval) |})
         (seq 0 num_frames),
       (Return (Some d0), s0)).
Proof.
  intros Hdt Hframes Hnz.
  pose proof (generate_fresh grid_size num_waves length_scale speed None rs Hnz)
    as Hrun. cbv zeta in Hrun.
  pose proof (generate_returns_height_field _ _ _ _ _ _ _ _ _ _ Hrun)
    as [Heta [Hpop _]].
  do 3 eexists. split; [exact Hrun |].
  unfold driver. destruct num_frames as [|n]; [lia |].
  cbn [seq frame_loop map]. cbn [INR]. rewrite Rmult_0_l, Hrun. cbn [np_random].
  rewrite frame_loop_reuse.
  - rewrite <- Heta. reflexivity.
  - exact Hdt.
  - exact Hpop.
  - intros frame Hin. apply in_seq in Hin. lia.
Qed.

Lemma half_stream_wavelengths (k : nat) :
  (stream half_random (position half_random + 5 * k + 1) * 10)%R <> 0%R.
Proof. cbn [stream half_random]. unfold half_stream. lra. Qed.

Lemma driver_threads_parameters_of_frame_zero_witness :
  exists eta0 d0 s0,
    generate_irregular_waves 210 1000 10 0 1 None half_random
    = (Return (eta0, d0), s0) /\
    main half_random
    = (map (fun frame =>
              {| file := frame_file "figs" frame;
                 title_time := (INR frame * (2 / 10))%R;
                 contour := height_field d0 210 1000 (INR frame * (2 / 10)) |})
         (seq 0 5000),
       (Return (Some d0), s0)).
Proof.
  apply (driver_threads_parameters_of_frame_zero 210 1000 10 1 5000 (2 / 10) "figs"
           half_random).
  - lra.
  - apply Nat.lt_0_succ.
  - intros k _. apply half_stream_wavelengths.
Defined.

(** X13. When some wavelength drawn by frame 0 is zero, the run stops at
    frame 0 with [ZeroDivisionError] and has saved no figure. *)
Theorem driver_raises_at_frame_zero (grid_size num_waves : nat)
    (length_scale speed : R) (num_frames : nat) (time_interval : R)
    (output_dir : string) (rs : RandomState) :
  (0 < num_frames)%nat ->
  (exists k, (k < num_waves)%nat /\
     (stream rs (position rs + 5 * k + 1) * length_scale)%R = 0%R) ->
  fst (driver grid_size num_waves length_scale speed num_frames time_interval
         output_dir rs) = [] /\
  fst (snd (driver grid_size num_waves length_scale speed num_frames time_interval
              output_dir rs)) = Raise ZeroDivisionError.
Proof.
  intros Hframes Hz. unfold driver. destruct num_frames as [|n]; [lia |].
  cbn [seq frame_loop]. cbn [INR]. rewrite Rmult_0_l.
  pose proof (generate_fresh_raises grid_size num_waves length_scale speed None rs Hz)
    as Hraise.
  destruct (generate_irregular_waves grid_size num_waves length_scale 0 speed None rs)
    as [[[eta d] | e] s]; cbn [fst] in Hraise; [discriminate |].
  injection Hraise as ->. split; reflexivity.
Qed.

Lemma driver_raises_at_frame_zero_witness :
  fst (driver 2 1 10 1 3 (2 / 10) "figs" zero_random) = [] /\
  fst (snd (driver 2 1 10 1 3 (2 / 10) "figs" zero_random)) = Raise ZeroDivisionError.
Proof.
  apply (driver_raises_at_frame_zero 2 1 10 1 3 (2 / 10) "figs" zero_random).
  - lia.
  - exists 0%nat. split; [lia |]. cbn. apply Rmult_0_l.
Defined.

(** X14. With a time interval of zero every frame is at time zero: each
    frame draws its own parameters, so a run of [num_frames] frames that
    meets no zero wavelength saves [num_frames] figures, all titled with
    time 0, and consumes [5 · num_waves · num_frames] draws. *)
Theorem driver_redraws_every_frame_without_time_step (grid_size num_waves : nat)
    (length_scale speed : R) (num_frames : nat) (output_dir : string)
    (rs : RandomState) :
  (forall k, (k < num_waves * num_frames)%nat ->
     (stream rs (position rs + 5 * k + 1) * length_scale)%R <> 0%R) ->
  exists figures out s,
    driver grid_size num_waves length_scale speed num_frames 0 output_dir rs
    = (figures, (Return out, s)) /\
    length figures = num_frames /\
    Forall (fun figure => title_time figure = 0%R) figures /\
    stream (np_random s) = stream rs /\
    position (np_random s) = (position rs + 5 * (num_waves * num_frames))%nat.
Proof.
  intros Hnz.
  destruct (frame_loop_redraws grid_size num_waves length_scale speed 0 output_dir
              (seq 0 num_frames) None rs eq_refl)
    as [figures [out [s [Hloop [Hlen [Hall Hs]]]]]].
  { rewrite length_seq. exact Hnz. }
  rewrite length_seq in Hlen, Hs.
  exists figures, out, s. unfold driver. rewrite Hs.
  repeat split; assumption.
Qed.

Lemma driver_redraws_every_frame_without_time_step_witness :
  exists figures out s,
    driver 2 1 10 1 3 0 "figs" half_random = (figures, (Return out, s)) /\
    length figures = 3%nat /\
    Forall (fun figure => title_time figure = 0%R) figures /\
    stream (np_random s) = stream half_random /\
    position (np_random s) = (position half_random + 5 * (1 * 3))%nat.
Proof.
  apply (driver_redraws_every_frame_without_time_step 2 1 10 1 3 "figs" half_random).
  intros k _. apply half_stream_wavelengths.
Defined.

(** ** The names of the files *)

Lemma string_append_nil (b : string) : String.append EmptyString b = b.
Proof. reflexivity. Qed.

Lemma string_append_cons (c : ascii) (a b : string) :
  String.append (String c a) b = String c (String.append a b).
Proof. reflexivity. Qed.

Lemma string_append_inv_head (p a b : string) :
  String.append p a = String.append p b -> a = b.
Proof.
  induction p as [|c p IH]; intros H.
  - exact H.
  - rewrite !string_append_cons in H. injection H as H. apply IH. exact H.
Qed.

Lemma string_length_append (a b : string) :
  String.length (String.append a b) = (String.length a + String.length b)%nat.
Proof.
  induction a as [|c a IH].
  - reflexivity.
  - rewrite string_append_cons. cbn [String.length Nat.add]. f_equal. exact IH.
Qed.

Lemma string_append_inv_tail (a b t : string) :
  String.append a t = String.append b t -> a = b.
Proof.
  revert b. induction a as [|c a IH]; intros [|c' b] H.
  - reflexivity.
  - apply (f_equal String.length) in H.
    rewrite !string_length_append in H. cbn [String.length] in H. lia.
  - apply (f_equal String.length) in H.
    rewrite !string_length_append in H. cbn [String.length] in H. lia.
  - rewrite !string_append_cons in H. injection H as -> H. f_equal. apply IH. exact H.
Qed.

Lemma zero_fill_length (n : nat) : String.length (zero_fill n) = n.
Proof. induction n as [|n IH]; cbn [zero_fill String.length]; [reflexivity | now rewrite IH]. Qed.

Lemma uint_of_zero_fill (k : nat) (s : string) :
  NilEmpty.uint_of_string (String.append (zero_fill k) s)
  = option_map (Nat.iter k Decimal.D0) (NilEmpty.uint_of_string s).
Proof.
  induction k as [|k IH]; cbn [zero_fill].
  - rewrite string_append_nil. destruct (NilEmpty.uint_of_string s); reflexivity.
  - rewrite string_append_cons. cbn [NilEmpty.uint_of_string]. rewrite IH.
    destruct (NilEmpty.uint_of_string s); reflexivity.
Qed.

Lemma of_uint_leading_zeros (k : nat) (d : Decimal.uint) :
  Nat.of_uint (Nat.iter k Decimal.D0 d) = Nat.of_uint d.
Proof.
  induction k as [|k IH]; [reflexivity |].
  cbn [Nat.iter nat_rect]. rewrite <- IH. reflexivity.
Qed.

(** Reading the digits of [f'{n:03d}'] back gives [n]. *)
Lemma format_03d_value (n : nat) :
  option_map Nat.of_uint (NilEmpty.uint_of_string (format_03d n)) = Some n.
Proof.
  unfold format_03d, py_str. cbv zeta. rewrite uint_of_zero_fill, NilEmpty.usu.
  cbn [option_map]. now rewrite of_uint_leading_zeros, Unsigned.of_to.
Qed.

Lemma string_of_uint_length (d : Decimal.uint) :
  String.length (NilEmpty.string_of_uint d) = Unsigned.usize d.
Proof.
  induction d; cbn [NilEmpty.string_of_uint String.length Unsigned.usize];
    [reflexivity | now rewrite IHd ..].
Qed.

Lemma of_uint_acc_bound (d : Decimal.uint) (acc : nat) :
  (Nat.of_uint_acc d acc < (acc + 1) * 10 ^ Unsigned.usize d)%nat.
Proof.
  revert acc. induction d; intros acc;
    cbn [Nat.of_uint_acc Unsigned.usize]; rewrite ?Nat.pow_succ_r';
    [cbn; lia | ..];
    (eapply Nat.lt_le_trans; [apply IHd |]; rewrite Nat.tail_mul_spec;
     generalize (10 ^ Unsigned.usize d)%nat; intros P; nia).
Qed.

Lemma py_str_length_bound (n : nat) : (n < 10 ^ String.length (py_str n))%nat.
Proof.
  unfold py_str. rewrite string_of_uint_length.
  rewrite <- (Unsigned.of_to n) at 1. unfold Nat.of_uint.
  pose proof (of_uint_acc_bound (Nat.to_uint n) 0) as H. lia.
Qed.

Lemma py_str_length_small (n : nat) :
  (n < 1000)%nat -> (String.length (py_str n) <= 3)%nat.
Proof.
  intros Hn.
  assert (Hall : forallb (fun k => String.length (py_str k) <=? 3)%nat (seq 0 1000) = true)
    by (vm_compute; reflexivity).
  rewrite forallb_forall in Hall. apply Nat.leb_le, Hall, in_seq. lia.
Qed.

Lemma format_03d_length (n : nat) :
  String.length (format_03d n) = Nat.max 3 (String.length (py_str n)).
Proof.
  unfold format_03d. cbv zeta. rewrite string_length_append, zero_fill_length. lia.
Qed.

(** X15. Two different frames are never written to the same file: the file
    name determines the frame. *)
Theorem frame_file_injective (output_dir : string) (frame1 frame2 : nat) :
  frame_file output_dir frame1 = frame_file output_dir frame2 ->
  frame1 = frame2.
Proof.
  unfold frame_file. intros H.
  apply string_append_inv_head, string_append_inv_head, string_append_inv_tail in H.
  pose proof (format_03d_value frame1) as H1. rewrite H, format_03d_value in H1.
  now injection H1.
Qed.

Lemma frame_file_injective_witness :
  frame_file "figs" 7 = frame_file "figs" 7 /\ 7%nat = 7%nat.
Proof. split; [reflexivity | exact (frame_file_injective "figs" 7 7 eq_refl)]. Defined.

(** X16. The file name has its fixed width, three digits between
    [/frame_] and [.png], exactly for the frames below 1000; from frame 1000
    on the name is longer. *)
Theorem frame_file_fixed_width_below_1000 (output_dir : string) (frame : nat) :
  String.length (frame_file output_dir frame) = (String.length output_dir + 14)%nat
  <-> (frame < 1000)%nat.
Proof.
  unfold frame_file. rewrite !string_length_append, format_03d_length.
  cbn [String.length]. split.
  - intros H. pose proof (py_str_length_bound frame) as Hb.
    assert (Hle : (String.length (py_str frame) <= 3)%nat) by lia.
    eapply Nat.lt_le_trans; [exact Hb |].
    change 1000%nat with (10 ^ 3)%nat. apply Nat.pow_le_mono_r; lia.
  - intros H. apply py_str_length_small in H. lia.
Qed.

(** The names of frames 7 and 1000 in the directory of the run. *)
Example frame_file_007 : frame_file "figs" 7 = "figs/frame_007.png"%string.
Proof. reflexivity. Qed.

Example frame_file_1000 : frame_file "figs" 1000 = "figs/frame_1000.png"%string.
Proof. vm_compute. reflexivity. Qed.
